(** * cfme.utils.log: a shallow embedding of the logging facility

    The development follows [src/cfme/utils/log.py].  Python values are
    modelled as the module uses them:

    - a [str] is a [string]; a character stands for a code point below 256;
    - an exception that escapes a function is a [Raise] result;
    - a dictionary is a finite map ([gmap]) and a set is a [gset];
    - objects that are shared and mutated in place (file handlers, the
      prefix filter, the timer dictionary, the set of seen warnings) live in
      an explicit store that is threaded through the calls.

    Definitions come first, module by module; the properties follow. *)

From Stdlib Require Import ZArith QArith List String Ascii DecimalString Lia.
From stdpp Require Import base option list gmap sets strings.

#[local] Set Warnings "-clear-no-such-hyp".
Local Open Scope string_scope.

(** ** Python prelude *)

Module Py.

(** The exceptions the module can let escape. *)
Inductive exn : Type :=
| KeyError
| IndexError
| ValueError
| TypeError
| AttributeError
| StopIteration.

(** The outcome of a call: a value, or an exception on its way up. *)
Inductive result (A : Type) : Type :=
| Ok (a : A)
| Raise (e : exn).
Arguments Ok {A} a.
Arguments Raise {A} e.

Definition bind {A B : Type} (r : result A) (k : A -> result B) : result B :=
  match r with
  | Ok a => k a
  | Raise e => Raise e
  end.

Definition map_result {A B : Type} (f : A -> B) (r : result A) : result B :=
  match r with
  | Ok a => Ok (f a)
  | Raise e => Raise e
  end.

Definition returns {A : Type} (r : result A) : Prop :=
  match r with Ok _ => True | Raise _ => False end.

(** [c * n] for a one-character string [c]. *)
Fixpoint repeat_char (c : ascii) (n : nat) : string :=
  match n with
  | O => EmptyString
  | S k => String c (repeat_char c k)
  end.

(** [format(s, fill + "^" + str(width))]: [s] centred in a field of
    [width] characters.  CPython gives the left side half of the padding,
    rounded down, and the right side the rest. *)
Definition center (fill : ascii) (width : nat) (s : string) : string :=
  let total := width - String.length s in
  let left := Nat.div total 2 in
  let right := total - left in
  repeat_char fill left ++ s ++ repeat_char fill right.

(** [str(n)] for an integer. *)
Definition str_of_Z (n : Z) : string :=
  NilZero.string_of_int (Z.to_int n).

(** [s.ljust(width)] *)
Definition ljust (width : nat) (s : string) : string :=
  s ++ repeat_char " " (width - String.length s).

(** The characters at which [str.splitlines] ends a line: line feed,
    vertical tab, form feed, carriage return, the three separators
    0x1c to 0x1e and next-line 0x85. *)
Definition is_linebreak (c : ascii) : bool :=
  let n := nat_of_ascii c in
  ((10 <=? n) && (n <=? 13) || (28 <=? n) && (n <=? 30) || (n =? 133))%nat.

(** [s.splitlines()].  [cur] is the line being read, if it has begun;
    [after_cr] tells that the previous character was a carriage return,
    so that a line feed right after it belongs to the same line end. *)
Fixpoint splitlines_go (cur : option string) (after_cr : bool) (s : string)
  : list string :=
  match s with
  | EmptyString => match cur with Some l => [l] | None => [] end
  | String c rest =>
      if after_cr && Ascii.eqb c "010" then splitlines_go cur false rest
      else if is_linebreak c then
        default EmptyString cur :: splitlines_go None (Ascii.eqb c "013") rest
      else splitlines_go (Some (default EmptyString cur ++ String c EmptyString)) false rest
  end.

Definition splitlines (s : string) : list string :=
  splitlines_go None false s.

(** [s] without the prefix [p], when it starts with [p]. *)
Fixpoint strip_prefix (p s : string) : option string :=
  match p, s with
  | EmptyString, _ => Some s
  | String a p', String b s' =>
      if Ascii.eqb a b then strip_prefix p' s' else None
  | String _ _, EmptyString => None
  end.

(** The text before and after the first occurrence of [sep] in [s]. *)
Fixpoint partition_at (sep before s : string) : option (string * string) :=
  match strip_prefix sep s with
  | Some after => Some (before, after)
  | None =>
      match s with
      | EmptyString => None
      | String c rest => partition_at sep (before ++ String c EmptyString) rest
      end
  end.

(** [s.split(sep, 1)] *)
Definition split_once (sep s : string) : result (list string) :=
  if String.eqb sep EmptyString then Raise ValueError
  else match partition_at sep EmptyString s with
       | Some (before, after) => Ok [before; after]
       | None => Ok [s]
       end.

(** [s.replace(old, new)]: the occurrences of [old] are taken from the
    left and do not overlap; [skip] counts the characters of an
    occurrence that are still to be passed over. *)
Fixpoint replace_go (old new : string) (skip : nat) (s : string) : string :=
  match s with
  | EmptyString => EmptyString
  | String c rest =>
      match skip with
      | S k => replace_go old new k rest
      | O =>
          match strip_prefix old s with
          | Some _ => new ++ replace_go old new (String.length old - 1) rest
          | None => String c (replace_go old new 0 rest)
          end
      end
  end.

Fixpoint interleave (new s : string) : string :=
  match s with
  | EmptyString => EmptyString
  | String c rest => String c (new ++ interleave new rest)
  end.

Definition replace (old new s : string) : string :=
  if String.eqb old EmptyString then new ++ interleave new s
  else replace_go old new 0 s.

(** The characters [str.strip] removes: those for which [isspace]
    holds. *)
Definition is_space (c : ascii) : bool :=
  let n := nat_of_ascii c in
  ((9 <=? n) && (n <=? 13) || (28 <=? n) && (n <=? 32)
   || (n =? 133) || (n =? 160))%nat.

Fixpoint lstrip (s : string) : string :=
  match s with
  | EmptyString => EmptyString
  | String c rest => if is_space c then lstrip rest else s
  end.

Fixpoint rstrip (s : string) : string :=
  match s with
  | EmptyString => EmptyString
  | String c rest =>
      let r := rstrip rest in
      if String.eqb r EmptyString && is_space c then EmptyString else String c r
  end.

(** [s.strip()] *)
Definition strip (s : string) : string := rstrip (lstrip s).

(** [''.join(parts)] *)
Definition join (parts : list string) : string :=
  fold_right String.append EmptyString parts.

(** The double quote and the line feed, as strings. *)
Definition dq : string := String "034" EmptyString.
Definition nl : string := String "010" EmptyString.

(** *** [os.path] on POSIX *)

(** [s] cut after its last slash, when it has one. *)
Fixpoint cut_last_slash (s : string) : option (string * string) :=
  match s with
  | EmptyString => None
  | String c rest =>
      match cut_last_slash rest with
      | Some (h, t) => Some (String c h, t)
      | None => if Ascii.eqb c "/" then Some ("/", rest) else None
      end
  end.

Fixpoint all_slashes (s : string) : bool :=
  match s with
  | EmptyString => true
  | String c rest => Ascii.eqb c "/" && all_slashes rest
  end.

(** [s.rstrip('/')] *)
Fixpoint rstrip_slash (s : string) : string :=
  match s with
  | EmptyString => EmptyString
  | String c rest =>
      let r := rstrip_slash rest in
      if String.eqb r EmptyString && Ascii.eqb c "/" then EmptyString else String c r
  end.

(** [os.path.split(p)] *)
Definition path_split (p : string) : string * string :=
  let '(head, tail) := default (EmptyString, p) (cut_last_slash p) in
  (if negb (String.eqb head EmptyString) && negb (all_slashes head)
   then rstrip_slash head else head, tail).

Definition ends_with_slash (s : string) : bool :=
  match cut_last_slash s with
  | Some (_, EmptyString) => true
  | _ => false
  end.

(** [s] has no slash in it. *)
Fixpoint no_slash (s : string) : bool :=
  match s with
  | EmptyString => true
  | String c rest => negb (Ascii.eqb c "/") && no_slash rest
  end.

(** A directory name as [os.path.split] returns it: not empty, not made
    of slashes only and with no slash at its end. *)
Definition tidy_dir (d : string) : Prop :=
  d <> EmptyString /\ all_slashes (d ++ "/") = false
  /\ rstrip_slash (d ++ "/") = d /\ ends_with_slash d = false.

(** [os.path.join(a, b)] *)
Definition path_join (a b : string) : string :=
  match b with
  | String "/" _ => b
  | _ => if String.eqb a EmptyString || ends_with_slash a then a ++ b
         else a ++ "/" ++ b
  end.

End Py.

Notation "'let!' x ':=' r 'in' k" := (Py.bind r (fun x => k))
  (at level 10, x pattern, r at level 100, k at level 200).

(** ** Markers: [format_marker] *)

Module Marker.
Import Py.

Definition MARKER_LEN : nat := 80.

(** [format_spec.format(mstring)] where [format_spec] is
    ["{:" + mark + "^" + str(MARKER_LEN) + "}"] and [mark] is one
    character, as the docstring has it.  A brace as the fill character
    leaves the replacement field unbalanced and [str.format] raises
    [ValueError]. *)
Definition format_centered (mark : ascii) (s : string) : result string :=
  if Ascii.eqb mark "{" || Ascii.eqb mark "}" then Raise ValueError
  else Ok (center mark MARKER_LEN s).

Definition format_marker (mstring : string) (mark : ascii) : result string :=
  if (String.length mstring <=? MARKER_LEN - 2)%nat then
    (* Pad with spaces *)
    let mstring := " " ++ mstring ++ " " in
    (* Format centered, surrounded the leader_mark *)
    format_centered mark mstring
  else Ok mstring.

(** The default value of the [mark] argument. *)
Definition default_mark : ascii := "-".

End Marker.

(** ** Configuration: [_default_conf] and [_load_conf] *)

Module Conf.
Import Py.

#[local] Unset Elimination Schemes.
(** A value of the YAML configuration, as the documented configuration
    has them: nothing, a boolean, an integer, a string or a nested
    mapping with string keys. *)
Inductive value : Type :=
| VNone
| VBool (b : bool)
| VInt (z : Z)
| VStr (s : string)
| VDict (d : gmap string value).
#[local] Set Elimination Schemes.

Abbreviation dict := (gmap string value).

(** [d.update(other)], as a new dictionary.  A mapping overlays its
    entries on [d].  Anything else is read as an iterable of key/value
    pairs: a string yields its characters, each of length 1 and not 2
    ([ValueError]), unless it is empty; the other values are not
    iterable ([TypeError]). *)
Definition dict_update (d : dict) (other : value) : result dict :=
  match other with
  | VDict o => Ok (o ∪ d)
  | VStr s => if String.eqb s EmptyString then Ok d else Raise ValueError
  | VNone | VBool _ | VInt _ => Raise TypeError
  end.

(** [bool(v)] *)
Definition truthy (v : value) : bool :=
  match v with
  | VNone => false
  | VBool b => b
  | VInt z => negb (z =? 0)%Z
  | VStr s => negb (String.eqb s EmptyString)
  | VDict d => negb (bool_decide (d = ∅))
  end.

(** set logging defaults *)
Definition _default_conf : dict :=
  {[ "level" := VStr "INFO";
     "errors_to_console" := VBool false;
     "to_console" := VBool false ]}.

(** The object [cfme.utils.conf] is imported from outside the sources at
    hand.  [_load_conf] needs two of its operations, which are taken as
    parameters over the state [S] of that object: [del conf['env']],
    which fails with [KeyError] ([None]) when no [env] is held, and the
    attribute [conf.env], which yields the [env] mapping and the state
    the access leaves behind. *)
Record conf_ops (S : Type) : Type := {
  del_env : S -> option S;
  get_env : S -> dict * S;
}.
Arguments del_env {S} _ _.
Arguments get_env {S} _ _.

Section LoadConf.
Context {S : Type} (conf : conf_ops S).

(** [conf.env.get('logging', {})] *)
Definition logging_section (env : dict) : value :=
  default (VDict ∅) (env !! "logging").

Definition _load_conf (c : S) (logger_name : option string)
  : result dict * S :=
  (* Reload logging conf from env, then update the logging_conf *)
  let c :=
    match del_env conf c with
    | Some c' => c'
    | None => c (* env not loaded yet *)
    end in
  let logging_conf := _default_conf in
  let '(env, c) := get_env conf c in
  let yaml_conf := logging_section env in
  (* Update the defaults with values from env yaml *)
  (let! logging_conf := dict_update logging_conf yaml_conf in
   (* Additionally, look in the logging conf for file-specific loggers *)
   match logger_name ≫= (fun n => logging_conf !! n) with
   | Some nested => dict_update logging_conf nested
   | None => Ok logging_conf
   end, c).

(** The store after the attempt to drop [env], and the [env] mapping
    that is read afterwards. *)
Definition after_del (c : S) : S := default c (del_env conf c).
Definition env_read (c : S) : dict := (get_env conf (after_del c)).1.
End LoadConf.

(** A store that reads [env] when it is first asked for and keeps it
    until it is deleted: [held] is the copy in memory, [on_disk] what a
    fresh read yields. *)
Record lazy_conf : Type := {
  held : option dict;
  on_disk : dict;
}.

Definition lazy_ops : conf_ops lazy_conf := {|
  del_env c :=
    match held c with
    | Some _ => Some {| held := None; on_disk := on_disk c |}
    | None => None
    end;
  get_env c :=
    match held c with
    | Some e => (e, c)
    | None => (on_disk c, {| held := Some (on_disk c); on_disk := on_disk c |})
    end;
|}.

End Conf.

(** ** The logging machinery the module builds on *)

Module Logging.
Import Py Conf.

(** *** Levels *)

Definition CRITICAL : Z := 50.
Definition ERROR : Z := 40.
Definition WARNING : Z := 30.
Definition INFO : Z := 20.
Definition DEBUG : Z := 10.
Definition NOTSET : Z := 0.

(** let logging know we made a TRACE level *)
Definition TRACE : Z := 5.

(** The names [logging] knows, [TRACE] included since
    [logging.addLevelName(logging.TRACE, 'TRACE')]. *)
Definition level_names : list (string * Z) :=
  [ ("CRITICAL", CRITICAL); ("FATAL", CRITICAL); ("ERROR", ERROR);
    ("WARN", WARNING); ("WARNING", WARNING); ("INFO", INFO);
    ("DEBUG", DEBUG); ("NOTSET", NOTSET); ("TRACE", TRACE) ].

Definition level_of_name (n : string) : option Z :=
  snd <$> List.find (fun e => String.eqb (fst e) n) level_names.

Definition getLevelName (level : Z) : string :=
  if (level =? CRITICAL)%Z then "CRITICAL"
  else if (level =? ERROR)%Z then "ERROR"
  else if (level =? WARNING)%Z then "WARNING"
  else if (level =? INFO)%Z then "INFO"
  else if (level =? DEBUG)%Z then "DEBUG"
  else if (level =? NOTSET)%Z then "NOTSET"
  else if (level =? TRACE)%Z then "TRACE"
  else "Level " ++ str_of_Z level.

(** [logging._checkLevel]: an integer (a boolean is one) or a known
    level name. *)
Definition _checkLevel (v : value) : result Z :=
  match v with
  | VInt z => Ok z
  | VBool b => Ok (if b then 1 else 0)%Z
  | VStr n =>
      match level_of_name n with
      | Some z => Ok z
      | None => Raise ValueError
      end
  | VNone | VDict _ => Raise TypeError
  end.

(** *** Records *)

(** A positional argument of a logging call. *)
Inductive arg : Type :=
| AStr (s : string)
| AInt (z : Z)
| ANum (q : Q).

(** A call [log.<level>(msg, *args, extra=extra)], together with what the
    interpreter knows at that point: the file and line of the calling
    statement and the time, as [%(asctime)s] shows it. *)
Record call : Type := {
  c_msg : string;
  c_args : list arg;
  c_extra : gmap string value;
  c_pathname : string;
  c_lineno : Z;
  c_asctime : string;
}.

Record LogRecord : Type := {
  name : string;
  levelno : Z;
  pathname : string;
  lineno : Z;
  msg : string;
  args : list arg;
  asctime : string;
  (** the attributes set from [extra] *)
  attrs : gmap string value;
}.

(** Attribute names of a record that [extra] may not overwrite. *)
Definition reserved_attributes : list string :=
  [ "message"; "asctime"; "name"; "msg"; "args"; "levelname"; "levelno";
    "pathname"; "filename"; "module"; "exc_info"; "exc_text";
    "stack_info"; "lineno"; "funcName"; "created"; "msecs";
    "relativeCreated"; "thread"; "threadName"; "processName"; "process" ].

(** [Logger.makeRecord] *)
Definition makeRecord (logger_name : string) (level : Z) (c : call)
  : result LogRecord :=
  if existsb (fun k => bool_decide (is_Some (c_extra c !! k)))
       reserved_attributes
  then Raise KeyError
  else Ok {| name := logger_name; levelno := level;
             pathname := c_pathname c; lineno := c_lineno c;
             msg := c_msg c; args := c_args c; asctime := c_asctime c;
             attrs := c_extra c |}.

(** A traceback entry, as [traceback.extract_tb] gives it. *)
Record frame : Type := {
  f_file : string;
  f_lineno : Z;
  f_function : string;
  f_text : string;
}.

(** *** What the module imports from elsewhere

    [get_rel_path], [log_path] and [project_path] come from
    [cfme.utils.path] and [safe_string] from [cfme.utils]; none of them
    is among the sources at hand.  [percent] is the operator
    [msg % args] ([None] when it raises), [format_tb] is
    [traceback.format_tb] and [module_file] the path of [log.py] itself,
    as calls made inside the module report it. *)
Record platform : Type := {
  get_rel_path : string -> string;
  safe_string : string -> string;
  log_path : string;
  project_path : string;
  percent : string -> list arg -> option string;
  format_tb : list frame -> list string;
  module_file : string;
}.

(** *** Handlers, loggers and the objects they share *)

Inductive formatter : Type :=
| FileFormat      (* the format of [make_file_handler] *)
| ConsoleFormat   (* the format of [console_handler] *)
| PlainFormat.    (* no formatter set: the message alone *)

Inductive handler_kind : Type :=
(** [logging.FileHandler]: the file to open next and the file that is
    open now, if any *)
| FileHandler (baseFilename : string) (stream : option string)
(** [logging.StreamHandler] on standard error *)
| StreamHandler
| ArtifactorHandler.

Record Handler : Type := {
  h_level : Z;
  h_format : formatter;
  h_kind : handler_kind;
}.

(** The filter classes of the module.  [add_prefix] is the one instance
    of [PrefixAddingLoggerFilter]; its prefix, and the set of the
    deduplication filter, are kept in the store. *)
Inductive Filter : Type :=
| _RelpathFilter
| add_prefix
| WarningsRelpathFilter
| WarningsDeduplicationFilter.

#[export] Instance Filter_eq_dec : EqDecision Filter.
Proof. solve_decision. Defined.

Record Logger : Type := {
  l_level : Z;
  l_propagate : bool;
  l_disabled : bool;
  l_handlers : list nat;
  l_filters : list Filter;
}.

(** The mutable objects of the process.  Handlers are addressed by
    number, so that a handler attached to two loggers is one object. *)
Record store : Type := {
  files : gmap string string;
  stderr : list string;
  handlers : gmap nat Handler;
  loggers : gmap string Logger;
  (** [add_prefix.prefix] *)
  prefix : option string;
  (** [WarningsDeduplicationFilter.seen] *)
  seen : gset string;
  (** [logging.disable(level)]: the manager's threshold *)
  disable : Z;
  (** the collector of [ArtifactorHandler], when registered, and what
      was handed to it *)
  artifactor : bool;
  fired : list LogRecord;
  (** every [msg % args] that was computed *)
  formatted : list (string * list arg);
}.

Definition set_files (f : gmap string string) (st : store) : store :=
  {| files := f; stderr := stderr st; handlers := handlers st;
     loggers := loggers st; prefix := prefix st; seen := seen st;
     disable := disable st; artifactor := artifactor st;
     fired := fired st; formatted := formatted st |}.

Definition set_stderr (e : list string) (st : store) : store :=
  {| files := files st; stderr := e; handlers := handlers st;
     loggers := loggers st; prefix := prefix st; seen := seen st;
     disable := disable st; artifactor := artifactor st;
     fired := fired st; formatted := formatted st |}.

Definition set_handlers (h : gmap nat Handler) (st : store) : store :=
  {| files := files st; stderr := stderr st; handlers := h;
     loggers := loggers st; prefix := prefix st; seen := seen st;
     disable := disable st; artifactor := artifactor st;
     fired := fired st; formatted := formatted st |}.

Definition set_loggers (l : gmap string Logger) (st : store) : store :=
  {| files := files st; stderr := stderr st; handlers := handlers st;
     loggers := l; prefix := prefix st; seen := seen st;
     disable := disable st; artifactor := artifactor st;
     fired := fired st; formatted := formatted st |}.

Definition set_prefix (p : option string) (st : store) : store :=
  {| files := files st; stderr := stderr st; handlers := handlers st;
     loggers := loggers st; prefix := p; seen := seen st;
     disable := disable st; artifactor := artifactor st;
     fired := fired st; formatted := formatted st |}.

Definition set_seen (s : gset string) (st : store) : store :=
  {| files := files st; stderr := stderr st; handlers := handlers st;
     loggers := loggers st; prefix := prefix st; seen := s;
     disable := disable st; artifactor := artifactor st;
     fired := fired st; formatted := formatted st |}.

Definition set_fired (f : list LogRecord) (st : store) : store :=
  {| files := files st; stderr := stderr st; handlers := handlers st;
     loggers := loggers st; prefix := prefix st; seen := seen st;
     disable := disable st; artifactor := artifactor st;
     fired := f; formatted := formatted st |}.

Definition set_formatted (f : list (string * list arg)) (st : store) : store :=
  {| files := files st; stderr := stderr st; handlers := handlers st;
     loggers := loggers st; prefix := prefix st; seen := seen st;
     disable := disable st; artifactor := artifactor st;
     fired := fired st; formatted := f |}.

(** The root logger, under the name [logging] gives it, with the level
    it starts with. *)
Definition root_name : string := "root".
Definition root_logger : Logger :=
  {| l_level := WARNING; l_propagate := true; l_disabled := false;
     l_handlers := []; l_filters := [] |}.

(** A process in which [logging] was just imported. *)
Definition fresh_store : store :=
  {| files := ∅; stderr := []; handlers := ∅;
     loggers := {[ root_name := root_logger ]};
     prefix := None; seen := ∅; disable := 0; artifactor := false;
     fired := []; formatted := [] |}.

End Logging.

(** ** Filters, handlers and loggers at work *)

Module Run.
Import Py Conf Logging.

(** *** The logger hierarchy *)

(** [s.rfind(".", 0, limit)] *)
Fixpoint rfind_dot_go (s : string) (idx limit : nat) (best : option nat)
  : option nat :=
  match s with
  | EmptyString => best
  | String c rest =>
      if (idx <? limit)%nat
      then rfind_dot_go rest (S idx) limit
             (if Ascii.eqb c "." then Some idx else best)
      else best
  end.

Definition rfind_dot (s : string) (limit : nat) : option nat :=
  rfind_dot_go s 0 limit None.

(** The names under which the manager looks for a parent of [n], nearest
    first: [n] cut before a dot at position [i > 0], the next dot being
    sought in [n[0:i-1]].  [fuel] bounds the number of dots. *)
Fixpoint parent_names_go (fuel : nat) (n : string) (i : option nat)
  : list string :=
  match fuel, i with
  | S fuel', Some (S i') =>
      substring 0 (S i') n :: parent_names_go fuel' n (rfind_dot n i')
  | _, _ => []
  end.

Definition parent_names (n : string) : list string :=
  parent_names_go (String.length n) n (rfind_dot n (String.length n)).

(** The loggers up from [n]: the parent of a logger is the nearest one
    that exists under a parent name, and the root when there is none. *)
Definition ancestors (st : store) (n : string) : list string :=
  if String.eqb n root_name then []
  else List.filter (fun p => bool_decide (is_Some (loggers st !! p)))
         (parent_names n) ++ [root_name].

Definition new_logger : Logger :=
  {| l_level := NOTSET; l_propagate := true; l_disabled := false;
     l_handlers := []; l_filters := [] |}.

(** [logging.getLogger(n)]: the logger of that name, made when it does
    not exist yet. *)
Definition getLogger (n : string) (st : store) : store :=
  match loggers st !! n with
  | Some _ => st
  | None => set_loggers (<[n := new_logger]> (loggers st)) st
  end.

Definition the_logger (st : store) (n : string) : Logger :=
  default new_logger (loggers st !! n).

Definition update_logger (n : string) (f : Logger -> Logger) (st : store)
  : store :=
  set_loggers (<[n := f (the_logger st n)]> (loggers st)) st.

Definition setLevel (level : Z) (l : Logger) : Logger :=
  {| l_level := level; l_propagate := l_propagate l;
     l_disabled := l_disabled l; l_handlers := l_handlers l;
     l_filters := l_filters l |}.

Definition set_propagate (b : bool) (l : Logger) : Logger :=
  {| l_level := l_level l; l_propagate := b;
     l_disabled := l_disabled l; l_handlers := l_handlers l;
     l_filters := l_filters l |}.

(** [logger.addHandler(h)]: a handler is attached once. *)
Definition addHandler (h : nat) (l : Logger) : Logger :=
  {| l_level := l_level l; l_propagate := l_propagate l;
     l_disabled := l_disabled l;
     l_handlers := if bool_decide (h ∈ l_handlers l) then l_handlers l
                   else l_handlers l ++ [h];
     l_filters := l_filters l |}.

(** [logger.addFilter(f)].  Every [_RelpathFilter()] is a new object and
    is appended; [add_prefix] and the filters of the warnings logger are
    single objects. *)
Definition addFilter (f : Filter) (l : Logger) : Logger :=
  {| l_level := l_level l; l_propagate := l_propagate l;
     l_disabled := l_disabled l; l_handlers := l_handlers l;
     l_filters :=
       if bool_decide (f ≠ _RelpathFilter) && bool_decide (f ∈ l_filters l)
       then l_filters l else l_filters l ++ [f] |}.

(** [logger.getEffectiveLevel()]: the first level that is set, going up. *)
Fixpoint first_set_level (st : store) (names : list string) : Z :=
  match names with
  | [] => NOTSET
  | n :: rest =>
      let level := l_level (the_logger st n) in
      if (level =? NOTSET)%Z then first_set_level st rest else level
  end.

Definition getEffectiveLevel (st : store) (n : string) : Z :=
  first_set_level st (n :: ancestors st n).

Definition isEnabledFor (st : store) (n : string) (level : Z) : bool :=
  if l_disabled (the_logger st n) then false
  else if (level <=? disable st)%Z then false
  else (getEffectiveLevel st n <=? level)%Z.

(** *** The filters of the module *)

(** [record.args[0].splitlines()[0].split(': ', 1)[-1]] *)
Definition warning_body (r : LogRecord) : result string :=
  match args r with
  | [] => Raise IndexError
  | AStr a :: _ =>
      match splitlines a with
      | [] => Raise IndexError
      | line :: _ =>
          let! parts := split_once ": " line in
          match last parts with
          | Some body => Ok body
          | None => Raise IndexError
          end
      end
  | _ :: _ => Raise AttributeError
  end.

(** [WarningsDeduplicationFilter.filter], on the set [self.seen] *)
Definition WarningsDeduplicationFilter_filter (seen : gset string) (r : LogRecord)
  : result (bool * gset string) :=
  let! msg := warning_body r in
  if bool_decide (msg ∈ seen) then Ok (false, seen)
  else Ok (true, {[ msg ]} ∪ seen).

(** The filter at work on the warnings of a process, one after the
    other: which of them pass, and the set at the end. *)
Fixpoint dedup_run (seen : gset string) (rs : list LogRecord)
  : result (list bool * gset string) :=
  match rs with
  | [] => Ok ([], seen)
  | r :: rest =>
      let! (pass, seen) := WarningsDeduplicationFilter_filter seen r in
      let! (passes, seen) := dedup_run seen rest in
      Ok (pass :: passes, seen)
  end.

Definition set_pathname (p : string) (r : LogRecord) : LogRecord :=
  {| name := name r; levelno := levelno r; pathname := p;
     lineno := lineno r; msg := msg r; args := args r;
     asctime := asctime r; attrs := attrs r |}.

Definition set_msg (m : string) (r : LogRecord) : LogRecord :=
  {| name := name r; levelno := levelno r; pathname := pathname r;
     lineno := lineno r; msg := m; args := args r;
     asctime := asctime r; attrs := attrs r |}.

Definition set_args (a : list arg) (r : LogRecord) : LogRecord :=
  {| name := name r; levelno := levelno r; pathname := pathname r;
     lineno := lineno r; msg := msg r; args := a;
     asctime := asctime r; attrs := attrs r |}.

Section Operations.
Context (P : platform).

(** The [filter] method of each class: whether the record goes on, the
    record as the filter leaves it, and the store. *)
Definition apply_filter (f : Filter) (r : LogRecord) (st : store)
  : result (bool * LogRecord * store) :=
  match f with
  | _RelpathFilter =>
      Ok (true, set_pathname (get_rel_path P (pathname r)) r, st)
  | add_prefix =>
      match prefix st with
      | Some p =>
          if String.eqb p EmptyString then Ok (true, r, st)
          else Ok (true, set_msg (safe_string P p ++ safe_string P (msg r)) r, st)
      | None => Ok (true, r, st)
      end
  | WarningsRelpathFilter =>
      match args r with
      | [] => Ok (true, r, st)
      | AStr a :: rest =>
          let new_record := replace (project_path P) "." a in
          Ok (true, set_args (AStr new_record :: rest) r, st)
      | _ :: _ => Raise AttributeError
      end
  | WarningsDeduplicationFilter =>
      let! (pass, seen') := WarningsDeduplicationFilter_filter (seen st) r in
      Ok (pass, r, set_seen seen' st)
  end.

(** [Filterer.filter]: the filters in order, up to the first that
    rejects the record. *)
Fixpoint run_filters (fs : list Filter) (r : LogRecord) (st : store)
  : result (bool * LogRecord * store) :=
  match fs with
  | [] => Ok (true, r, st)
  | f :: rest =>
      let! (pass, r', st') := apply_filter f r st in
      if pass then run_filters rest r' st' else Ok (false, r', st')
  end.

(** *** Formatting and emitting *)

(** [record.getMessage()] *)
Definition getMessage (r : LogRecord) : option string :=
  match args r with
  | [] => Some (msg r)
  | _ :: _ => percent P (msg r) (args r)
  end.

(** ["%(pathname)s:%(lineno)s"] *)
Definition location (r : LogRecord) : string :=
  pathname r ++ ":" ++ str_of_Z (lineno r).

Definition format (f : formatter) (r : LogRecord) (message : string)
  : string :=
  match f with
  | FileFormat =>
      (* '%(asctime)-15s [%(levelname).1s] [%(name)s] %(message)s
         (%(pathname)s:%(lineno)s)' *)
      ljust 15 (asctime r) ++ " ["
        ++ substring 0 1 (getLevelName (levelno r)) ++ "] ["
        ++ name r ++ "] " ++ message ++ " (" ++ location r ++ ")"
  | ConsoleFormat =>
      (* '[%(levelname)s] [%(name)s] %(message)s
         (%(pathname)s:%(lineno)s)' *)
      "[" ++ getLevelName (levelno r) ++ "] [" ++ name r ++ "] "
        ++ message ++ " (" ++ location r ++ ")"
  | PlainFormat => message
  end.

(** The text a handler writes for a record; computing it evaluates
    [msg % args] when there are arguments, which [formatted] notes.
    [None] when that raises: the handler reports the error and goes
    on without the record. *)
Definition render (h : Handler) (r : LogRecord) (st : store)
  : option string * store :=
  let st :=
    match args r with
    | [] => st
    | _ :: _ => set_formatted (formatted st ++ [(msg r, args r)]) st
    end in
  ((fun m => format (h_format h) r m ++ nl) <$> getMessage r, st).

Definition append_file (path text : string) (st : store) : store :=
  set_files (<[path := default EmptyString (files st !! path) ++ text]> (files st)) st.

(** [handler.emit(record)] for the handler stored under [id] *)
Definition emit (id : nat) (h : Handler) (r : LogRecord) (st : store)
  : store :=
  match h_kind h with
  | ArtifactorHandler =>
      if artifactor st then set_fired (fired st ++ [r]) st else st
  | StreamHandler =>
      match render h r st with
      | (Some line, st) => set_stderr (stderr st ++ [line]) st
      | (None, st) => st
      end
  | FileHandler base stream =>
      (* a closed handler opens [baseFilename], for appending *)
      let target := default base stream in
      let st := append_file target EmptyString st in
      let st :=
        set_handlers
          (<[id := {| h_level := h_level h; h_format := h_format h;
                      h_kind := FileHandler base (Some target) |}]>
             (handlers st)) st in
      match render h r st with
      | (Some line, st) => append_file target line st
      | (None, st) => st
      end
  end.

Fixpoint emit_all (ids : list nat) (r : LogRecord) (st : store) : store :=
  match ids with
  | [] => st
  | id :: rest =>
      let st :=
        match handlers st !! id with
        | Some h => if (h_level h <=? levelno r)%Z then emit id h r st else st
        | None => st
        end in
      emit_all rest r st
  end.

(** [Logger.callHandlers]: the handlers of the logger and of the
    loggers above it, as long as records propagate; the number of
    handlers met. *)
Fixpoint callHandlers_up (names : list string) (r : LogRecord)
    (found : nat) (st : store) : nat * store :=
  match names with
  | [] => (found, st)
  | c :: rest =>
      let l := the_logger st c in
      let st := emit_all (l_handlers l) r st in
      let found := found + length (l_handlers l) in
      if l_propagate l then callHandlers_up rest r found st
      else (found, st)
  end.

(** The handler of last resort: warnings and worse go to standard
    error when no handler was met. *)
Definition lastResort : Handler :=
  {| h_level := WARNING; h_format := PlainFormat; h_kind := StreamHandler |}.

Definition callHandlers (n : string) (r : LogRecord) (st : store) : store :=
  match callHandlers_up (n :: ancestors st n) r 0 st with
  | (O, st) =>
      if (h_level lastResort <=? levelno r)%Z then emit 0 lastResort r st
      else st
  | (_, st) => st
  end.

(** [Logger.handle] *)
Definition handle (n : string) (r : LogRecord) (st : store) : result store :=
  let l := the_logger st n in
  if l_disabled l then Ok st
  else
    let! (pass, r, st) := run_filters (l_filters l) r st in
    if pass then Ok (callHandlers n r st) else Ok st.

(** [Logger._log] *)
Definition _log (n : string) (level : Z) (c : call) (st : store)
  : result store :=
  let! r := makeRecord n level c in
  handle n r st.

(** [Logger.debug], [Logger.info] and the like *)
Definition log (n : string) (level : Z) (c : call) (st : store)
  : result store :=
  if isEnabledFor st n level then _log n level c st else Ok st.

(** [TraceLogger.trace]: Log 'msg % args' with severity 'TRACE'. *)
Definition trace (n : string) (c : call) (st : store) : result store :=
  if isEnabledFor st n TRACE then _log n TRACE c st else Ok st.

(** *** Adapters *)

Inductive Adapter : Type :=
(** [TraceLoggerAdapter(logger, extra)], with the [process] of
    [logging.LoggerAdapter] *)
| TraceLoggerAdapter (logger : string) (extra : gmap string value)
(** [NamedLoggerAdapter(logger, name)] *)
| NamedLoggerAdapter (logger : string) (extra : string).

Definition adapter_logger (a : Adapter) : string :=
  match a with
  | TraceLoggerAdapter n _ | NamedLoggerAdapter n _ => n
  end.

Definition process (a : Adapter) (c : call) : call :=
  match a with
  | TraceLoggerAdapter _ extra =>
      {| c_msg := c_msg c; c_args := c_args c; c_extra := extra;
         c_pathname := c_pathname c; c_lineno := c_lineno c;
         c_asctime := c_asctime c |}
  | NamedLoggerAdapter _ extra =>
      (* '({}) {}'.format(self.extra, message) *)
      {| c_msg := "(" ++ extra ++ ") " ++ c_msg c; c_args := c_args c;
         c_extra := c_extra c; c_pathname := c_pathname c;
         c_lineno := c_lineno c; c_asctime := c_asctime c |}
  end.

(** [TraceLoggerAdapter.trace]: delegate a trace call to the underlying
    logger, after adding contextual information from this adapter
    instance. *)
Definition adapter_trace (a : Adapter) (c : call) (st : store)
  : result store :=
  let c := process a c in
  trace (adapter_logger a) c st.

End Operations.

(** *** Notions used in the properties *)

(** No key of [extra] is the name of an attribute a record has anyway. *)
Definition extra_allowed (extra : gmap string value) : Prop :=
  existsb (fun k => bool_decide (is_Some (extra !! k))) reserved_attributes
  = false.

(** The filters that only rewrite a record: [_RelpathFilter] and
    [add_prefix]. *)
Definition rewriting_filter (f : Filter) : Prop :=
  f = _RelpathFilter \/ f = add_prefix.

Definition with_extra (extra : gmap string value) (c : call) : call :=
  {| c_msg := c_msg c; c_args := c_args c; c_extra := extra;
     c_pathname := c_pathname c; c_lineno := c_lineno c;
     c_asctime := c_asctime c |}.

(** A record without the attributes set from [extra], and a store
    without the records handed to the artifactor: what is left is what
    reaches files and streams. *)
Definition plain_record (r : LogRecord) : LogRecord :=
  {| name := name r; levelno := levelno r; pathname := pathname r;
     lineno := lineno r; msg := msg r; args := args r;
     asctime := asctime r; attrs := ∅ |}.

Definition plain_store (st : store) : store := set_fired [] st.

(** What a filter chain yields, up to the attributes and the
    artifactor's records. *)
Definition plain_verdict (v : bool * LogRecord * store)
  : bool * LogRecord * store :=
  (v.1.1, plain_record v.1.2, plain_store v.2).





End Run.

(** ** The module itself *)

Module Log.
Import Py Conf Logging Run.

(** What a function of the module does to the outside, in order: a call
    [logging.getLogger(logger).<level>(msg, *args, extra=extra)] made at
    line [line] of [log.py], or a call of the exception hook that was
    installed before the module's own. *)
Inductive action : Type :=
| Log (logger : string) (level : Z) (msg : string) (args : list arg)
      (extra : gmap string value) (line : Z)
| OriginalExcepthook (type_name : string) (value : string)
      (traceback : list frame).

(** *** [Perflog] *)

(** [Perflog.tracking_events] is an attribute of the class: one
    dictionary for all instances.  [self_logger] is the name of
    [self.logger] and [now] the reading of [time()], in seconds; readings
    are exact rational numbers here. *)
Definition Perflog_start (self_logger : string) (event_name : string)
    (now : Q) (tracking_events : gmap string Q)
  : list action * gmap string Q :=
  ((if bool_decide (is_Some (tracking_events !! event_name))
    then [Log self_logger WARNING
            (dq ++ "%s" ++ dq ++ " event already started, resetting start time")
            [AStr event_name] ∅ 310]
    else [Log self_logger DEBUG
            (dq ++ "%s" ++ dq ++ " event tracking started")
            [AStr event_name] ∅ 312]),
   <[event_name := now]> tracking_events).

(** The value returned is [Some seconds_taken], or [None] for Python's
    [None]. *)
Definition Perflog_stop (self_logger : string) (event_name : string)
    (now : Q) (tracking_events : gmap string Q)
  : list action * option Q * gmap string Q :=
  match tracking_events !! event_name with
  | Some started =>
      let seconds_taken := (now - started)%Q in
      ([Log self_logger INFO
          (dq ++ "%s" ++ dq ++ " event took %f seconds")
          [AStr event_name; ANum seconds_taken] ∅ 325],
       Some seconds_taken, delete event_name tracking_events)
  | None =>
      ([Log self_logger ERROR
          (dq ++ "%s" ++ dq ++ " not being tracked, call .start first")
          [AStr event_name] ∅ 328],
       None, tracking_events)
  end.

(** An operation on the timer and the clock reading it sees. *)
Inductive perf_op : Type :=
| Start (event_name : string) (now : Q)
| Stop (event_name : string) (now : Q).

Definition perf_step (self_logger : string) (op : perf_op)
    (tracking_events : gmap string Q)
  : list action * option Q * gmap string Q :=
  match op with
  | Start n now =>
      let '(acts, t) := Perflog_start self_logger n now tracking_events in
      (acts, None, t)
  | Stop n now => Perflog_stop self_logger n now tracking_events
  end.

Definition clock_of (op : perf_op) : Q :=
  match op with Start _ now | Stop _ now => now end.

(** A series of operations: what each returns, and the dictionary at
    the end. *)
Fixpoint perf_run (self_logger : string) (ops : list perf_op)
    (tracking_events : gmap string Q) : list (option Q) * gmap string Q :=
  match ops with
  | [] => ([], tracking_events)
  | op :: rest =>
      let '(_, returned, t) := perf_step self_logger op tracking_events in
      let '(returns, t) := perf_run self_logger rest t in
      (returned :: returns, t)
  end.

(** The clock never reads less than it did before. *)
Fixpoint clock_monotone (from : Q) (ops : list perf_op) : Prop :=
  match ops with
  | [] => True
  | op :: rest => (from <= clock_of op)%Q /\ clock_monotone (clock_of op) rest
  end.

(** *** The exception hook *)

Section Hook.
Context (P : platform).

(** The name of the module's [logger] object. *)
Definition logger : string := "cfme".

(** [traceback] is the list of its entries, the innermost last; no
    traceback at all ([None]) is the empty list. *)
Definition _custom_excepthook (type_name value : string)
    (traceback : list frame) : result (list action) :=
  match last traceback with
  | None => Raise IndexError
  | Some fr =>
      let file := f_file fr in
      let lineno := f_lineno fr in
      let text := strip (join (format_tb P traceback)) in
      Ok [ Log logger ERROR "Unhandled %s" [AStr type_name] ∅ 410;
           Log logger ERROR text []
             {[ "source_file" := VStr file;
                "source_lineno" := VInt lineno ]} 411;
           OriginalExcepthook type_name value traceback ]
  end.

(** *** Performing the logging calls *)

(** The call behind a [Log] action, made at the time [asctime]. *)
Definition call_of (asctime : string) (msg : string) (args : list arg)
    (extra : gmap string value) (line : Z) : call :=
  {| c_msg := msg; c_args := args; c_extra := extra;
     c_pathname := module_file P; c_lineno := line;
     c_asctime := asctime |}.

Definition perform (asctime : string) (a : action) (st : store)
  : result store :=
  match a with
  | Log n level msg args extra line =>
      log P n level (call_of asctime msg args extra line) st
  | OriginalExcepthook _ _ _ => Ok st
  end.

Fixpoint perform_all (asctime : string) (acts : list action) (st : store)
  : result store :=
  match acts with
  | [] => Ok st
  | a :: rest =>
      let! st := perform asctime a st in
      perform_all asctime rest st
  end.
End Hook.

(** *** Handlers and loggers of the module *)

(** A new handler object; handlers are never discarded, so their count
    is a number not in use. *)
Definition new_handler (h : Handler) (st : store) : nat * store :=
  let id := size (handlers st) in
  (id, set_handlers (<[id := h]> (handlers st)) st).

Definition set_handler_level (id : nat) (level : Z) (st : store) : store :=
  match handlers st !! id with
  | Some h =>
      set_handlers
        (<[id := {| h_level := level; h_format := h_format h;
                    h_kind := h_kind h |}]> (handlers st)) st
  | None => st
  end.

Section Setup.
Context (P : platform).

(** [make_file_handler(filename, root, level)]; a caller that leaves
    [level] out passes its default, [None].  [logging.FileHandler]
    opens the file for appending at once; its [baseFilename] is the
    absolute form of the joined path, which is the joined path itself
    for the absolute, normalised [root] the module is used with. *)
Definition make_file_handler (filename root : string)
    (level : value) (st : store) : result (nat * store) :=
  let filename := path_join root filename in
  let st := append_file filename EmptyString st in
  let '(handler, st) :=
    new_handler {| h_level := NOTSET; h_format := FileFormat;
                   h_kind := FileHandler filename (Some filename) |} st in
  match level with
  | VNone => Ok (handler, st)
  | _ => (* level is not None *)
      let! level := _checkLevel level in
      Ok (handler, set_handler_level handler level st)
  end.

Definition console_handler (level : value) (st : store)
  : result (nat * store) :=
  let '(handler, st) :=
    new_handler {| h_level := NOTSET; h_format := PlainFormat;
                   h_kind := StreamHandler |} st in
  let! level := _checkLevel level in
  let st := set_handler_level handler level st in
  match handlers st !! handler with
  | Some h =>
      Ok (handler,
          set_handlers
            (<[handler := {| h_level := h_level h;
                             h_format := ConsoleFormat;
                             h_kind := h_kind h |}]> (handlers st)) st)
  | None => Ok (handler, st)
  end.

Definition item (d : dict) (k : string) : result value :=
  match d !! k with
  | Some v => Ok v
  | None => Raise KeyError
  end.

Section WithConf.
Context {S : Type} (conf_obj : conf_ops S).

(** [setup_logger(logger, file_handler)], for the logger named [n];
    the file handler in use is returned. *)
Definition setup_logger (n : string) (file_handler : option nat)
    (c : S) (st : store) : result (nat * S * store) :=
  (* prevent the root logger effective level from affecting us *)
  let st := update_logger n (setLevel 1) st in
  (* prevent root logger handlers from triggering *)
  let st := update_logger n (set_propagate false) st in
  (* Grab the logging conf *)
  let '(loaded, c) := _load_conf conf_obj c (Some n) in
  let! conf := loaded in
  let! (file_handler, st) :=
    match file_handler with
    | Some h => Ok (h, st)
    | None =>
        let! level := item conf "level" in
        make_file_handler (n ++ ".log") (log_path P) level st
    end in
  let st := update_logger n (addHandler file_handler) st in
  let! errors_to_console := item conf "errors_to_console" in
  let! st :=
    if truthy errors_to_console then
      let! (h, st) := console_handler (VInt ERROR) st in
      Ok (update_logger n (addHandler h) st)
    else Ok st in
  let! to_console := item conf "to_console" in
  let! st :=
    if truthy to_console then
      let! (h, st) := console_handler to_console st in
      Ok (update_logger n (addHandler h) st)
    else Ok st in
  let st := update_logger n (addFilter _RelpathFilter) st in
  Ok (file_handler, c, st).

(** [_configure_warnings], as far as loggers are concerned. *)
Definition _configure_warnings (st : store) : result store :=
  let st := getLogger "py.warnings" st in
  let st := update_logger "py.warnings" (addFilter WarningsRelpathFilter) st in
  let st := set_seen ∅ st in
  let st := update_logger "py.warnings" (addFilter WarningsDeduplicationFilter) st in
  let! (h, st) := make_file_handler "py.warnings.log" (log_path P) VNone st in
  let st := update_logger "py.warnings" (addHandler h) st in
  let! (h, st) := console_handler (VInt INFO) st in
  let st := update_logger "py.warnings" (addHandler h) st in
  Ok (update_logger "py.warnings" (set_propagate false) st).

(** The objects the module binds when it is imported. *)
Record globals : Type := {
  cfme_file_handler : nat;
  artifactor_handler : nat;
}.

(** The statements at the top level of the module, from
    [logger, cfme_file_handler = setup_logger(...)] on. *)
Definition import_module (c : S) (st : store)
  : result (globals * S * store) :=
  let st := getLogger "cfme" st in
  let! (cfme_file_handler, c, st) := setup_logger "cfme" None c st in
  (* Have wrapanapi log to the same FileHandler as cfme *)
  let st := getLogger "wrapanapi" st in
  let! (_, c, st) :=
    setup_logger "wrapanapi" (Some cfme_file_handler) c st in
  let '(artifactor_handler, st) :=
    new_handler {| h_level := NOTSET; h_format := PlainFormat;
                   h_kind := ArtifactorHandler |} st in
  let st := update_logger "cfme" (addHandler artifactor_handler) st in
  let st := update_logger "wrapanapi" (addHandler artifactor_handler) st in
  let st := set_prefix None st in
  let st := update_logger "cfme" (addFilter add_prefix) st in
  (* perflog = Perflog() *)
  let st := getLogger "perf" st in
  let! (_, c, st) := setup_logger "perf" None c st in
  let! st := _configure_warnings st in
  Ok ({| cfme_file_handler := cfme_file_handler;
         artifactor_handler := artifactor_handler |}, c, st).
End WithConf.

(** *** Workers *)

Definition is_file_handler (st : store) (id : nat) : bool :=
  match h_kind <$> handlers st !! id with
  | Some (FileHandler _ _) => true
  | _ => false
  end.

(** [handler.close()] *)
Definition close (id : nat) (st : store) : store :=
  match handlers st !! id with
  | Some {| h_level := level; h_format := f;
            h_kind := FileHandler base _ |} =>
      set_handlers
        (<[id := {| h_level := level; h_format := f;
                    h_kind := FileHandler base None |}]> (handlers st)) st
  | _ => st
  end.

Definition baseFilename_of (st : store) (id : nat) : string :=
  match h_kind <$> handlers st !! id with
  | Some (FileHandler base _) => base
  | _ => EmptyString
  end.

Definition stream_of (st : store) (id : nat) : option string :=
  match h_kind <$> handlers st !! id with
  | Some (FileHandler _ stream) => stream
  | _ => None
  end.

Definition set_baseFilename (id : nat) (base : string) (st : store)
  : store :=
  match handlers st !! id with
  | Some {| h_level := level; h_format := f;
            h_kind := FileHandler _ stream |} =>
      set_handlers
        (<[id := {| h_level := level; h_format := f;
                    h_kind := FileHandler base stream |}]> (handlers st)) st
  | _ => st
  end.

(** The body of the loop of [setup_for_worker], for one logger name. *)
Definition setup_one (asctime workername n : string) (st : store)
  : result store :=
  let st := getLogger n st in
  match List.find (is_file_handler st) (l_handlers (the_logger st n)) with
  | None => Raise StopIteration
  | Some handler =>
      let st := close handler st in
      let parts := path_split (baseFilename_of st handler) in
      let base := parts.1 in
      let name := parts.2 in
      let st := set_prefix (Some ("(" ++ workername ++ ")")) st in
      let st :=
        set_baseFilename handler
          (path_join base (workername ++ "-" ++ name)) st in
      (* directly reopens the file *)
      perform P asctime (Log n DEBUG "worker log started" [] ∅ 513) st
  end.

Fixpoint setup_for_worker_loop (asctime workername : string)
    (loggers : list string) (st : store) : result store :=
  match loggers with
  | [] => Ok st
  | n :: rest =>
      let! st := setup_one asctime workername n st in
      setup_for_worker_loop asctime workername rest st
  end.

(** The name one round of the loop gives to the file [old]: its directory
    joined with ["{worker}-{name}"]. *)
Definition worker_filename (workername old : string) : string :=
  path_join (path_split old).1 (workername ++ "-" ++ (path_split old).2).

(** The default of the [loggers] argument. *)
Definition worker_loggers : list string := ["cfme"; "py.warnings"; "wrapanapi"].

Definition setup_for_worker (asctime workername : string)
    (loggers : list string) (st : store) : result store :=
  setup_for_worker_loop asctime workername loggers st.
End Setup.

End Log.

(** ** A concrete installation, for running the definitions *)

Module Sample.
Import Py Conf Logging Run Log.

Definition show_arg (a : arg) : string :=
  match a with
  | AStr s => s
  | AInt z => str_of_Z z
  | ANum q => str_of_Z (Qnum q) ++ "/" ++ str_of_Z (Zpos (Qden q))
  end.

(** A small [%] operator: [%%] is a percent sign and any other
    conversion takes the next argument as [show_arg] shows it; too few
    or too many arguments are an error. *)
Fixpoint sample_percent (m : string) (a : list arg) : option string :=
  match m with
  | EmptyString => match a with [] => Some EmptyString | _ :: _ => None end
  | String "%" (String "%" rest) => String "%" <$> sample_percent rest a
  | String "%" (String _ rest) =>
      match a with
      | [] => None
      | x :: a' => String.append (show_arg x) <$> sample_percent rest a'
      end
  | String c rest => String c <$> sample_percent rest a
  end.

Definition sample_format_tb (tb : list frame) : list string :=
  (fun fr =>
     "  File " ++ dq ++ f_file fr ++ dq ++ ", line " ++ str_of_Z (f_lineno fr)
       ++ ", in " ++ f_function fr ++ nl ++ ("    " ++ f_text fr)
       ++ nl) <$> tb.

Definition sample_platform : platform :=
  {| get_rel_path p := default p (strip_prefix "/project/" p);
     safe_string s := s;
     log_path := "/project/log";
     project_path := "/project";
     percent := sample_percent;
     format_tb := sample_format_tb;
     module_file := "/project/cfme/utils/log.py" |}.

Definition not_loaded (disk : dict) : lazy_conf :=
  {| held := None; on_disk := disk |}.

(** A warning as [logging.captureWarnings] hands it over, up to Python
    3.10: the one argument is the text of [warnings.formatwarning]. *)
Definition warning_record (text : string) : LogRecord :=
  {| name := "py.warnings"; levelno := WARNING;
     pathname := "/usr/lib/python3/warnings.py"; lineno := 110;
     msg := "%s"; args := [AStr text]; asctime := "2020-01-01 00:00:00,000";
     attrs := ∅ |}.

Definition sample_warnings : list LogRecord :=
  [ warning_record
      ("/project/a.py:3: UserWarning: boo" ++ nl ++ "  warn()" ++ nl);
    warning_record
      ("/project/b.py:9: UserWarning: boo" ++ nl ++ "  warn()" ++ nl);
    warning_record
      ("/project/a.py:5: UserWarning: other" ++ nl ++ "  warn()" ++ nl) ].

(** A traceback of two entries, the innermost last. *)
Definition sample_traceback : list frame :=
  [ {| f_file := "/project/run.py"; f_lineno := 3; f_function := "<module>";
       f_text := "main()" |};
    {| f_file := "/project/cfme/x.py"; f_lineno := 40; f_function := "main";
       f_text := "raise KeyError(1)" |} ].

(** A call made from a test, at line 42 of its file. *)
Definition sample_call (msg : string) (args : list arg)
    (extra : gmap string value) : call :=
  {| c_msg := msg; c_args := args; c_extra := extra;
     c_pathname := "/project/cfme/tests/test_x.py"; c_lineno := 42;
     c_asctime := "2020-01-01 00:00:00,000" |}.

(** An [env.yaml] that sets the global level and overrides it for the
    [cfme] logger, and its "logging" section. *)
Definition sample_global : dict :=
  {[ "level" := VStr "DEBUG"; "cfme" := VDict {[ "level" := VStr "TRACE" ]} ]}.

Definition sample_env : dict := {[ "logging" := VDict sample_global ]}.

(** The store once the module is imported with the given [env.yaml]. *)
Definition imported (disk : dict) : result (globals * lazy_conf * store) :=
  import_module sample_platform lazy_ops (not_loaded disk) fresh_store.

(** The store part of a result; the fresh store stands in when the
    import raised. *)
Definition store_of {A : Type} (r : result (A * store)) : store :=
  match r with
  | Ok (_, st) => st
  | Raise _ => fresh_store
  end.

(** The module imported with no [env.yaml] settings at all. *)
Definition default_store : store := store_of (imported ∅).

Definition default_globals : option globals :=
  match imported ∅ with
  | Ok (g, _, _) => Some g
  | Raise _ => None
  end.

Definition cfme_log : string := "/project/log/cfme.log".

(** What [cfme.log] holds after one [logger.info(msg, extra=extra)] on
    the freshly imported module. *)
Definition written (msg : string) (extra : gmap string value)
  : result (option string) :=
  let! st := log sample_platform "cfme" INFO (sample_call msg [] extra)
               default_store in
  Ok (files st !! cfme_log).

(** The override of the module's docstring:
    [extra={'source_file': 'somefilename.py', 'source_lineno': 7}]. *)
Definition override_both : gmap string value :=
  {[ "source_file" := VStr "somefilename.py"; "source_lineno" := VInt 7 ]}.

(** [source_file] alone, the line being [None]. *)
Definition override_file : gmap string value :=
  {[ "source_file" := VStr "somefilename.py"; "source_lineno" := VNone ]}.

(** An [env.yaml] that asks for rotation at [size] bytes with [backups]
    backups, and the module imported with it. *)
Definition rotating_env (size backups : Z) : dict :=
  {[ "logging" :=
       VDict {[ "max_logfile_size" := VInt size;
                "max_logfile_backups" := VInt backups ]} ]}.

Definition rotating_store (size backups : Z) : store :=
  store_of (imported (rotating_env size backups)).

(** The line [logger.info(msg)] is expected to leave in [cfme.log] when
    called from [sample_call]: time, level letter, logger name, message
    and the calling statement's file, relative to the project, and line. *)
Definition info_line (msg : string) : string :=
  ("2020-01-01 00:00:00,000 [I] [cfme] " ++ msg ++ " (cfme/tests/test_x.py:42)")
    ++ nl.

Definition info_lines (msgs : list string) : string :=
  fold_right (fun m rest => info_line m ++ rest) EmptyString msgs.

(** The store [st] with [content] as the text of [cfme.log]. *)
Definition with_cfme_log (content : string) (st : store) : store :=
  set_files (<[cfme_log := content]> (files st)) st.

(** [logger.info(msg)] for each message in turn. *)
Fixpoint info_all (msgs : list string) (st : store) : result store :=
  match msgs with
  | [] => Ok st
  | m :: rest =>
      let! st := log sample_platform "cfme" INFO (sample_call m [] ∅) st in
      info_all rest st
  end.

(** [logging.captureWarnings] at work: each text goes to the
    [py.warnings] logger as [logger.warning("%s", text)]. *)
Fixpoint warn_all (texts : list string) (st : store) : result store :=
  match texts with
  | [] => Ok st
  | text :: rest =>
      let! st := log sample_platform "py.warnings" WARNING
                   {| c_msg := "%s"; c_args := [AStr text]; c_extra := ∅;
                      c_pathname := "/usr/lib/python3/warnings.py";
                      c_lineno := 110;
                      c_asctime := "2020-01-01 00:00:00,000" |} st in
      warn_all rest st
  end.

Definition sample_warning_texts : list string :=
  [ "/project/a.py:3: UserWarning: boo" ++ nl ++ "  warn()" ++ nl;
    "/project/b.py:9: UserWarning: boo" ++ nl ++ "  warn()" ++ nl;
    "/project/a.py:5: UserWarning: other" ++ nl ++ "  warn()" ++ nl ].

(** The module imported with the file level lowered to TRACE. *)
Definition trace_store : store :=
  store_of (imported {[ "logging" := VDict {[ "level" := VStr "TRACE" ]} ]}).

End Sample.

(** ** The rest of the module, and notions for its properties *)

Module Rest.
Import Py Conf Logging Run Log Sample.

(** *** Text *)






(** *** Configuration *)


(** *** [create_sublogger] *)


(** *** [nth_frame_info] *)



(** *** [ArtifactorHandler] *)


(** *** [add_stdout_handler] *)







(** *** The timer *)



(** *** Stores *)









End Rest.

(** * Properties *)

Module PyFacts.
Import Py.

Lemma length_repeat_char c n : String.length (repeat_char c n) = n.
Proof. induction n as [|n IH]; simpl; congruence. Qed.

Lemma append_nil_l (t : string) : EmptyString ++ t = t.
Proof. reflexivity. Qed.

Lemma append_cons (a : ascii) (s t : string) :
  String a s ++ t = String a (s ++ t).
Proof. reflexivity. Qed.

Lemma append_nil_r (s : string) : s ++ EmptyString = s.
Proof.
  induction s as [|a s IH]; [reflexivity|]. by rewrite append_cons, IH.
Qed.

Lemma append_assoc (s t u : string) : (s ++ t) ++ u = s ++ (t ++ u).
Proof.
  induction s as [|a s IH]; [reflexivity|]. by rewrite !append_cons, IH.
Qed.

Lemma string_length_app (s t : string) :
  String.length (s ++ t) = String.length s + String.length t.
Proof.
  induction s as [|a s IH]; [reflexivity|].
  rewrite append_cons. simpl. congruence.
Qed.


Lemma no_slash_cut (s : string) : no_slash s = true -> cut_last_slash s = None.
Proof.
  induction s as [|c s IH]; [done|]. simpl.
  intros [Hc Hs]%andb_prop. rewrite (IH Hs).
  by destruct (Ascii.eqb c "/").
Qed.

Lemma no_slash_app (s t : string) :
  no_slash s = true -> no_slash t = true -> no_slash (s ++ t) = true.
Proof.
  induction s as [|c s IH]; [done|]. rewrite append_cons. simpl.
  intros [Hc Hs]%andb_prop Ht. by rewrite Hc, IH.
Qed.

Lemma cut_last_slash_app (a b : string) :
  no_slash b = true -> cut_last_slash (a ++ "/" ++ b) = Some (a ++ "/", b).
Proof.
  intros Hb. induction a as [|c a IH].
  - change (EmptyString ++ "/" ++ b) with (String "/" b). simpl.
    by rewrite (no_slash_cut b Hb).
  - rewrite append_cons. simpl. by rewrite IH.
Qed.

(** Splitting a path made of a tidy directory and a name gives the two
    back, and joining them gives the path. *)
Lemma path_split_join (d b : string) :
  tidy_dir d -> no_slash b = true ->
  path_split (d ++ "/" ++ b) = (d, b) /\ path_join d b = d ++ "/" ++ b.
Proof.
  intros (Hne & Hall & Hstrip & Hend) Hb. split.
  - unfold path_split. rewrite (cut_last_slash_app d b Hb). simpl.
    rewrite Hall, Hstrip.
    destruct (String.eqb (d ++ "/") EmptyString) eqn:E; [|done].
    apply String.eqb_eq in E. by destruct d.
  - unfold path_join. rewrite Hend.
    destruct (String.eqb d EmptyString) eqn:E.
    { apply String.eqb_eq in E. done. }
    destruct b as [|c b]; [done|].
    simpl in Hb. apply andb_prop in Hb as [Hc _].
    destruct (Ascii.eqb_spec c "/") as [->|Hc']; [done|].
    simpl. destruct c as [[] [] [] [] [] [] [] []]; try reflexivity.
    by destruct Hc'.
Qed.

End PyFacts.

Module PyExamples.
Import Py.
Example splitlines_1 : splitlines ("ab" ++ nl ++ "cd" ++ nl) = ["ab"; "cd"].
Proof. reflexivity. Qed.
Example splitlines_2 : splitlines EmptyString = [].
Proof. reflexivity. Qed.
Example splitlines_3 : splitlines (String "013" (nl ++ "x")) = [EmptyString; "x"].
Proof. reflexivity. Qed.
Example splitlines_4 : splitlines (nl ++ (String "013" EmptyString)) = [EmptyString; EmptyString].
Proof. reflexivity. Qed.
Example split_1 :
  split_once ": " "a.py:3: UserWarning: boo: x"
  = Ok ["a.py:3"; "UserWarning: boo: x"].
Proof. reflexivity. Qed.
Example split_2 : split_once ": " "nothing" = Ok ["nothing"].
Proof. reflexivity. Qed.
Example replace_1 : replace "aa" "b" "aaaaa" = "bba".
Proof. reflexivity. Qed.
Example replace_2 : replace EmptyString "-" "abc" = "-a-b-c-".
Proof. reflexivity. Qed.
Example replace_3 : replace "/root/p" "." "/root/p/x.py:1: in /root/p/y" = "./x.py:1: in ./y".
Proof. reflexivity. Qed.
Example path_1 : path_split "/var/log/cfme.log" = ("/var/log", "cfme.log").
Proof. reflexivity. Qed.
Example path_2 : path_split "cfme.log" = (EmptyString, "cfme.log").
Proof. reflexivity. Qed.
Example path_3 : path_split "/cfme.log" = ("/", "cfme.log").
Proof. reflexivity. Qed.
Example path_4 : path_split "/a//b/" = ("/a//b", EmptyString).
Proof. reflexivity. Qed.
Example path_5 :
  path_join "/var/log" "x.log" = "/var/log/x.log"
  /\ path_join "/var/log/" "x.log" = "/var/log/x.log"
  /\ path_join EmptyString "x" = "x"
  /\ path_join "/a" "/b" = "/b".
Proof. repeat split. Qed.
Example str_1 : str_of_Z 513 = "513" /\ str_of_Z (-4) = "-4" /\ str_of_Z 0 = "0".
Proof. repeat split. Qed.
End PyExamples.

Module RunFacts.
Import Py Conf Logging Run.

Example parent_names_1 : parent_names "py.warnings" = ["py"].
Proof. reflexivity. Qed.
Example parent_names_2 : parent_names "a.b.c" = ["a.b"; "a"].
Proof. reflexivity. Qed.
Example parent_names_3 : parent_names ".a" = [] /\ parent_names "a..b" = ["a."].
Proof. split; reflexivity. Qed.

(** Before the module is imported, a logger gets its level from the
    root; afterwards [cfme] has its own. *)
Example effective_levels :
  getEffectiveLevel (getLogger "cfme" fresh_store) "cfme" = WARNING
  /\ getEffectiveLevel Sample.default_store "cfme" = 1%Z
  /\ getEffectiveLevel Sample.default_store "py.warnings" = WARNING
  /\ isEnabledFor Sample.default_store "cfme" TRACE = true
  /\ isEnabledFor Sample.default_store "py.warnings" DEBUG = false.
Proof. repeat split. Qed.

Section Frame.
Context (P : platform).

(** **** Loggers are left alone by handling a record *)

Lemma emit_loggers id h r st : loggers (emit P id h r st) = loggers st.
Proof.
  unfold emit, render.
  destruct (h_kind h); simpl;
    repeat (match goal with
            | |- context [if ?b then _ else _] => destruct b
            | |- context [match ?x with _ => _ end] => destruct x
            end; simpl); reflexivity.
Qed.

Lemma emit_all_loggers ids r : forall st,
  loggers (emit_all P ids r st) = loggers st.
Proof.
  induction ids as [|id ids IH]; intros st; [reflexivity|].
  simpl. rewrite IH.
  destruct (handlers st !! id) as [h|]; [|reflexivity].
  destruct (h_level h <=? levelno r)%Z; [apply emit_loggers|reflexivity].
Qed.

Lemma the_logger_ext st st' n :
  loggers st' = loggers st -> the_logger st' n = the_logger st n.
Proof. unfold the_logger. by intros ->. Qed.

Lemma callHandlers_up_loggers names r : forall found st,
  loggers (callHandlers_up P names r found st).2 = loggers st.
Proof.
  induction names as [|c names IH]; intros found st; [reflexivity|].
  simpl. destruct (l_propagate (the_logger st c)).
  - rewrite IH. apply emit_all_loggers.
  - simpl. apply emit_all_loggers.
Qed.

Lemma callHandlers_loggers n r st :
  loggers (callHandlers P n r st) = loggers st.
Proof.
  unfold callHandlers.
  pose proof (callHandlers_up_loggers (n :: ancestors st n) r 0 st) as H.
  destruct (callHandlers_up P (n :: ancestors st n) r 0 st) as [found st'].
  simpl in H. destruct found; [|done].
  destruct (h_level lastResort <=? levelno r)%Z; [|done].
  by rewrite emit_loggers.
Qed.

(** **** Calls that cannot raise *)

Lemma extra_allowed_empty : extra_allowed ∅.
Proof. reflexivity. Qed.

Lemma makeRecord_allowed n level c :
  extra_allowed (c_extra c) ->
  makeRecord n level c
  = Ok {| name := n; levelno := level; pathname := c_pathname c;
          lineno := c_lineno c; msg := c_msg c; args := c_args c;
          asctime := c_asctime c; attrs := c_extra c |}.
Proof. unfold extra_allowed, makeRecord. by intros ->. Qed.

Lemma run_filters_rewriting fs : forall r st,
  Forall rewriting_filter fs ->
  exists r', run_filters P fs r st = Ok (true, r', st).
Proof.
  induction fs as [|f fs IH]; intros r st Hfs; [by eexists|].
  apply Forall_cons in Hfs as [[-> | ->] Hfs]; simpl.
  - apply IH, Hfs.
  - destruct (prefix st) as [p|]; [destruct (String.eqb p EmptyString)|];
      simpl; apply IH, Hfs.
Qed.

(** A logging call with allowed extras on a logger whose filters only
    rewrite returns, and leaves every logger as it was. *)
Lemma log_returns n level c st :
  extra_allowed (c_extra c) ->
  Forall rewriting_filter (l_filters (the_logger st n)) ->
  exists st', log P n level c st = Ok st' /\ loggers st' = loggers st.
Proof.
  intros Hextra Hfs. unfold log, _log, handle.
  destruct (isEnabledFor st n level); [|by eexists].
  rewrite (makeRecord_allowed _ _ _ Hextra). simpl.
  destruct (l_disabled (the_logger st n)); [by eexists|].
  destruct (run_filters_rewriting _
              {| name := n; levelno := level; pathname := c_pathname c;
                 lineno := c_lineno c; msg := c_msg c; args := c_args c;
                 asctime := c_asctime c; attrs := c_extra c |} st Hfs)
    as [r' ->].
  simpl. eexists. split; [reflexivity|]. apply callHandlers_loggers.
Qed.

End Frame.

(** The loggers that [setup_logger] sets up have rewriting filters only. *)
Lemma default_store_filters :
  Forall rewriting_filter (l_filters (the_logger Sample.default_store "cfme"))
  /\ Forall rewriting_filter
       (l_filters (the_logger Sample.default_store "wrapanapi"))
  /\ Forall rewriting_filter (l_filters (the_logger Sample.default_store "perf")).
Proof.
  repeat split; repeat constructor; unfold rewriting_filter; tauto.
Qed.

(** **** Files are only ever appended to *)





Section Appending.
Context (P : platform).








End Appending.

(** **** The attributes set from [extra] reach no file and no stream *)

Section Plain.
Context (P : platform).

Lemma plain_store_fields st1 st2 :
  plain_store st1 = plain_store st2 ->
  files st1 = files st2 /\ stderr st1 = stderr st2
  /\ handlers st1 = handlers st2 /\ loggers st1 = loggers st2
  /\ prefix st1 = prefix st2 /\ seen st1 = seen st2
  /\ disable st1 = disable st2 /\ artifactor st1 = artifactor st2
  /\ formatted st1 = formatted st2.
Proof. destruct st1, st2. intros [= -> -> -> -> -> -> -> -> ->]. done. Qed.

Ltac same_but_fired Hst Hr :=
  match type of Hst with
  | plain_store ?st1 = plain_store ?st2 =>
      destruct st1 as [fs1 err1 hs1 ls1 px1 sn1 ds1 af1 fd1 fm1];
      destruct st2 as [fs2 err2 hs2 ls2 px2 sn2 ds2 af2 fd2 fm2];
      injection Hst as -> -> -> -> -> -> -> -> ->
  end;
  match type of Hr with
  | plain_record ?r1 = plain_record ?r2 =>
      destruct r1 as [nm1 lv1 pn1 ln1 mg1 ag1 at1 tr1];
      destruct r2 as [nm2 lv2 pn2 ln2 mg2 ag2 at2 tr2];
      injection Hr as -> -> -> -> -> -> ->
  end.

Lemma emit_plain id h r1 r2 st1 st2 :
  plain_store st1 = plain_store st2 ->
  plain_record r1 = plain_record r2 ->
  plain_store (emit P id h r1 st1) = plain_store (emit P id h r2 st2).
Proof.
  intros Hst Hr. same_but_fired Hst Hr.
  unfold emit, render, getMessage. simpl.
  destruct (h_kind h) as [base stream| |]; simpl.
  - destruct ag2 as [|a ag2]; simpl; [reflexivity|].
    destruct (percent P mg2 (a :: ag2)); reflexivity.
  - destruct ag2 as [|a ag2]; simpl; [reflexivity|].
    destruct (percent P mg2 (a :: ag2)); reflexivity.
  - destruct af2; reflexivity.
Qed.

Lemma emit_all_plain ids r1 r2 : forall st1 st2,
  plain_store st1 = plain_store st2 ->
  plain_record r1 = plain_record r2 ->
  plain_store (emit_all P ids r1 st1) = plain_store (emit_all P ids r2 st2).
Proof.
  induction ids as [|id ids IH]; intros st1 st2 Hst Hr; [done|].
  simpl. apply IH; [|done].
  destruct (plain_store_fields _ _ Hst) as (_ & _ & -> & _).
  assert (levelno r1 = levelno r2) as ->
    by (destruct r1, r2; by injection Hr).
  destruct (handlers st2 !! id) as [h|]; [|done].
  destruct (h_level h <=? levelno r2)%Z; [|done].
  by apply emit_plain.
Qed.

Lemma callHandlers_up_plain names r1 r2 : forall found st1 st2,
  plain_store st1 = plain_store st2 ->
  plain_record r1 = plain_record r2 ->
  (callHandlers_up P names r1 found st1).1
    = (callHandlers_up P names r2 found st2).1
  /\ plain_store (callHandlers_up P names r1 found st1).2
     = plain_store (callHandlers_up P names r2 found st2).2.
Proof.
  induction names as [|c names IH]; intros found st1 st2 Hst Hr; [done|].
  simpl.
  destruct (plain_store_fields _ _ Hst) as (_ & _ & _ & Hl & _).
  rewrite (the_logger_ext _ _ c Hl).
  destruct (l_propagate (the_logger st2 c)).
  - apply IH; [|done]. by apply emit_all_plain.
  - simpl. split; [done|]. by apply emit_all_plain.
Qed.

Lemma ancestors_ext st1 st2 n :
  loggers st1 = loggers st2 -> ancestors st1 n = ancestors st2 n.
Proof. unfold ancestors. by intros ->. Qed.

Lemma callHandlers_plain n r1 r2 st1 st2 :
  plain_store st1 = plain_store st2 ->
  plain_record r1 = plain_record r2 ->
  plain_store (callHandlers P n r1 st1)
  = plain_store (callHandlers P n r2 st2).
Proof.
  intros Hst Hr. unfold callHandlers.
  destruct (plain_store_fields _ _ Hst) as (_ & _ & _ & Hl & _).
  rewrite (ancestors_ext _ _ n Hl).
  destruct (callHandlers_up_plain (n :: ancestors st2 n) r1 r2 0 st1 st2
              Hst Hr) as [Hfound Hup].
  destruct (callHandlers_up P (n :: ancestors st2 n) r1 0 st1)
    as [found1 st1'].
  destruct (callHandlers_up P (n :: ancestors st2 n) r2 0 st2)
    as [found2 st2'].
  simpl in Hfound, Hup. subst found2.
  destruct found1; [|done].
  assert (levelno r1 = levelno r2) as ->
    by (destruct r1, r2; by injection Hr).
  destruct (h_level lastResort <=? levelno r2)%Z; [|done].
  by apply emit_plain.
Qed.

Lemma plain_verdict_eq pass1 r1 st1 pass2 r2 st2 :
  @Ok _ (plain_verdict (pass1, r1, st1)) = Ok (plain_verdict (pass2, r2, st2)) ->
  pass1 = pass2 /\ plain_record r1 = plain_record r2
  /\ plain_store st1 = plain_store st2.
Proof.
  intros H.
  pose proof (f_equal (fun x => match x with
                                | Ok v => v
                                | Raise _ => (true, r1, st1)
                                end) H) as Hv.
  unfold plain_verdict in Hv. cbn [fst snd] in Hv.
  repeat split.
  - exact (f_equal (fun v : bool * LogRecord * store => v.1.1) Hv).
  - exact (f_equal (fun v : bool * LogRecord * store => v.1.2) Hv).
  - exact (f_equal (fun v : bool * LogRecord * store => v.2) Hv).
Qed.

Lemma apply_filter_plain f r1 r2 st1 st2 :
  plain_store st1 = plain_store st2 ->
  plain_record r1 = plain_record r2 ->
  map_result plain_verdict (apply_filter P f r1 st1)
  = map_result plain_verdict (apply_filter P f r2 st2).
Proof.
  intros Hst Hr. same_but_fired Hst Hr.
  destruct f; simpl.
  - reflexivity.
  - destruct px2 as [p|]; [destruct (String.eqb p EmptyString)|]; reflexivity.
  - destruct ag2 as [|[a|z|q] rest]; reflexivity.
  - unfold WarningsDeduplicationFilter_filter, warning_body. simpl.
    destruct ag2 as [|[a|z|q] rest]; try reflexivity.
    destruct (splitlines a) as [|line lines]; [reflexivity|].
    destruct (split_once ": " line) as [parts|]; [|reflexivity]. simpl.
    destruct (last parts) as [body|]; [|reflexivity]. simpl.
    destruct (bool_decide (body ∈ sn2)); reflexivity.
Qed.

Lemma run_filters_plain fs r1 r2 : forall st1 st2,
  plain_store st1 = plain_store st2 ->
  plain_record r1 = plain_record r2 ->
  map_result plain_verdict (run_filters P fs r1 st1)
  = map_result plain_verdict (run_filters P fs r2 st2).
Proof.
  revert r1 r2.
  induction fs as [|f fs IH]; intros r1 r2 st1 st2 Hst Hr.
  - simpl. unfold plain_verdict. simpl. by rewrite Hst, Hr.
  - simpl. pose proof (apply_filter_plain f r1 r2 st1 st2 Hst Hr) as Hf.
    destruct (apply_filter P f r1 st1) as [[[pass1 r1'] st1']|e1];
      destruct (apply_filter P f r2 st2) as [[[pass2 r2'] st2']|e2];
      simpl in Hf; try discriminate; [|done].
    apply plain_verdict_eq in Hf as (-> & Hr' & Hst').
    destruct pass2; [by apply IH|].
    simpl. unfold plain_verdict. simpl. by rewrite Hr', Hst'.
Qed.

Lemma handle_plain n r1 r2 st1 st2 :
  plain_store st1 = plain_store st2 ->
  plain_record r1 = plain_record r2 ->
  map_result plain_store (handle P n r1 st1)
  = map_result plain_store (handle P n r2 st2).
Proof.
  intros Hst Hr. unfold handle.
  destruct (plain_store_fields _ _ Hst) as (_ & _ & _ & Hl & _).
  rewrite (the_logger_ext _ _ n Hl).
  destruct (l_disabled (the_logger st2 n)); [simpl; by rewrite Hst|].
  pose proof (run_filters_plain (l_filters (the_logger st2 n))
                r1 r2 st1 st2 Hst Hr) as Hf.
  destruct (run_filters P _ r1 st1) as [[[pass1 r1'] st1']|e1];
    destruct (run_filters P _ r2 st2) as [[[pass2 r2'] st2']|e2];
    simpl in Hf; try discriminate; [|by injection Hf as ->].
  apply plain_verdict_eq in Hf as (-> & Hr' & Hst'). simpl.
  destruct pass2; simpl; [|by rewrite Hst'].
  f_equal. by apply callHandlers_plain.
Qed.

(** Two calls that differ in their [extra] only leave the same files,
    the same streams, the same handlers and loggers behind. *)
Lemma log_ignores_extra n level c extra st :
  extra_allowed (c_extra c) -> extra_allowed extra ->
  map_result plain_store (log P n level c st)
  = map_result plain_store (log P n level (with_extra extra c) st).
Proof.
  intros Hc He. unfold log, _log.
  destruct (isEnabledFor st n level); [|done].
  rewrite (makeRecord_allowed _ _ c Hc).
  rewrite (makeRecord_allowed _ _ (with_extra extra c) He). simpl.
  by apply handle_plain.
Qed.

End Plain.

End RunFacts.

Module MarkerFacts.
Import Py Marker PyFacts.

(** C10.  A message of at most [MARKER_LEN - 2] characters comes back as a
    string of exactly [MARKER_LEN] characters: the message with one space
    on each side, between a left and a right run of the mark character
    whose lengths differ by at most one (the right run takes the odd
    character); a longer message comes back unchanged, whatever the mark.
    The mark is a fill character that [str.format] accepts, i.e. not a
    brace. *)
Theorem format_marker_spec (mstring : string) (mark : ascii)
    (Hmark : mark <> "{"%char /\ mark <> "}"%char) :
  (String.length mstring <= MARKER_LEN - 2 ->
     exists left right : nat,
       format_marker mstring mark
         = Ok (repeat_char mark left ++ (" " ++ mstring ++ " ")
                 ++ repeat_char mark right)
       /\ left + (String.length mstring + 2) + right = MARKER_LEN
       /\ left <= right <= left + 1
       /\ forall out, format_marker mstring mark = Ok out ->
                      String.length out = MARKER_LEN)
  /\ (MARKER_LEN - 2 < String.length mstring ->
        format_marker mstring mark = Ok mstring).
Proof.
  destruct Hmark as [Hl Hr].
  apply Ascii.eqb_neq in Hl, Hr.
  split.
  - intros Hlen. unfold format_marker, format_centered.
    apply Nat.leb_le in Hlen as Hb. rewrite Hb, Hl, Hr. simpl orb. cbv iota.
    assert (Hpad : String.length (" " ++ mstring ++ " ") = String.length mstring + 2).
    { rewrite !string_length_app. simpl. lia. }
    unfold center. rewrite Hpad.
    set (total := MARKER_LEN - (String.length mstring + 2)).
    assert (Hhalf : 2 * Nat.div total 2 <= total)
      by (apply Nat.Div0.mul_div_le).
    assert (Hhalf' : total < 2 * Nat.div total 2 + 2).
    { pose proof (Nat.div_mod_eq total 2) as E.
      pose proof (Nat.mod_upper_bound total 2 ltac:(lia)). lia. }
    assert (Htot : total + (String.length mstring + 2) = MARKER_LEN)
      by (unfold total, MARKER_LEN in *; lia).
    generalize dependent (Nat.div total 2). intros half Hhalf Hhalf'.
    exists half, (total - half).
    repeat split; try lia.
    intros out [= <-].
    rewrite string_length_app, (string_length_app (" " ++ mstring ++ " ")).
    rewrite Hpad, !length_repeat_char. lia.
  - intros Hlen. unfold format_marker.
    destruct (String.length mstring <=? MARKER_LEN - 2)%nat eqn:Hb; [|reflexivity].
    apply Nat.leb_le in Hb. lia.
Qed.

Lemma format_marker_spec_witness :
  (default_mark <> "{"%char /\ default_mark <> "}"%char)
  /\ (exists left right : nat,
        format_marker "smoke" default_mark
          = Ok (repeat_char default_mark left ++ (" " ++ "smoke" ++ " ")
                  ++ repeat_char default_mark right)
        /\ left + (String.length "smoke" + 2) + right = MARKER_LEN
        /\ left <= right <= left + 1
        /\ forall out, format_marker "smoke" default_mark = Ok out ->
                       String.length out = MARKER_LEN)
  /\ format_marker (repeat_char "x" 79) default_mark = Ok (repeat_char "x" 79).
Proof.
  assert (Hmark : default_mark <> "{"%char /\ default_mark <> "}"%char)
    by (split; discriminate).
  split; [exact Hmark|]. split.
  - apply (proj1 (format_marker_spec "smoke" default_mark Hmark)).
    vm_compute. lia.
  - apply (proj2 (format_marker_spec (repeat_char "x" 79) default_mark Hmark)).
    vm_compute. lia.
Defined.

End MarkerFacts.

Module ConfFacts.
Import Py Conf Sample.

(** Looking a key up in an overlay: the upper layer wins. *)
Lemma lookup_overlay (upper lower : dict) (k : string) :
  (upper ∪ lower) !! k
  = match upper !! k with Some v => Some v | None => lower !! k end.
Proof.
  destruct (upper !! k) as [v|] eqn:E.
  - by apply lookup_union_Some_l.
  - by rewrite lookup_union_r.
Qed.

Section Resolution.
Context {S : Type} (conf : conf_ops S).

Lemma load_conf_unfold (c : S) (logger_name : option string) :
  (_load_conf conf c logger_name).1
  = (let! logging_conf :=
       dict_update _default_conf (logging_section (env_read conf c)) in
     match logger_name ≫= (fun n => logging_conf !! n) with
     | Some nested => dict_update logging_conf nested
     | None => Ok logging_conf
     end).
Proof.
  unfold _load_conf, env_read, after_del.
  destruct (del_env conf c) as [c'|]; simpl;
    (match goal with |- context [get_env conf ?x] =>
       destruct (get_env conf x) as [env c2] end); reflexivity.
Qed.

(** The [KeyError] of [del conf['env']] is passed over: the [env] is
    then read from the store as it was. *)
Lemma load_conf_not_held (c : S) (logger_name : option string) :
  del_env conf c = None ->
  env_read conf c = (get_env conf c).1
  /\ (_load_conf conf c logger_name).2 = (get_env conf c).2.
Proof.
  intros Hdel. unfold _load_conf, env_read, after_del. rewrite Hdel. simpl.
  by destruct (get_env conf c) as [env c2].
Qed.

(** C4 (amended).  Take a logger name under which the hard-coded
    default overlaid by the global "logging" section [g] (an absent
    section counts as the empty mapping, as [get('logging', {})] has it)
    holds either nothing or a mapping [nested].  Then the resolved
    configuration is the hard-coded default overlaid first by [g] and
    then by [nested], the later overlay winning key by key.  When no
    global configuration has been loaded, that is when the [env] that is
    read holds no "logging" section, the result for a name that is not a
    default key is the hard-coded default alone; this is so too when no
    [env] was held and [del conf['env']] raised [KeyError], which is no
    error: the call returns, and leaves the store as reading [env] from
    it does. *)
Theorem load_conf_overlays (c : S) (name : string) :
  (forall g nested : dict,
      logging_section (env_read conf c) = VDict g ->
      ((g ∪ _default_conf) !! name = None /\ nested = ∅)
      \/ (g ∪ _default_conf) !! name = Some (VDict nested) ->
      (_load_conf conf c (Some name)).1 = Ok (nested ∪ (g ∪ _default_conf))
      /\ forall k : string,
           (nested ∪ (g ∪ _default_conf)) !! k
           = match nested !! k with
             | Some v => Some v
             | None => match g !! k with
                       | Some v => Some v
                       | None => _default_conf !! k
                       end
             end)
  /\ (env_read conf c !! "logging" = None ->
      _default_conf !! name = None ->
      (_load_conf conf c (Some name)).1 = Ok _default_conf)
  /\ (del_env conf c = None ->
      (get_env conf c).1 !! "logging" = None ->
      _default_conf !! name = None ->
      _load_conf conf c (Some name) = (Ok _default_conf, (get_env conf c).2)).
Proof.
  assert (Hdefault : env_read conf c !! "logging" = None ->
                     _default_conf !! name = None ->
                     (_load_conf conf c (Some name)).1 = Ok _default_conf).
  { intros Habsent Hname.
    rewrite load_conf_unfold. unfold logging_section. rewrite Habsent. simpl.
    rewrite (left_id_L ∅ (∪)), Hname. reflexivity. }
  split; [|split; [exact Hdefault|]].
  - intros g nested Hg Hname. split.
    + rewrite load_conf_unfold, Hg. simpl.
      destruct Hname as [[Hnone ->] | Hsome].
      * rewrite Hnone. by rewrite (left_id_L ∅ (∪)).
      * by rewrite Hsome.
    + intros k. by rewrite !lookup_overlay.
  - intros Hdel Habsent Hname.
    destruct (load_conf_not_held c (Some name) Hdel) as [Henv Hstore].
    rewrite <- Henv in Habsent.
    rewrite (surjective_pairing (_load_conf conf c (Some name))).
    by rewrite (Hdefault Habsent Hname), Hstore.
Qed.
End Resolution.

Lemma load_conf_overlays_witness :
  (_load_conf lazy_ops (not_loaded sample_env) (Some "cfme")).1
    = Ok ({[ "level" := VStr "TRACE" ]} ∪ (sample_global ∪ _default_conf))
  /\ (_load_conf lazy_ops {| held := Some sample_env; on_disk := ∅ |} (Some "cfme")).1 = Ok _default_conf
  /\ _load_conf lazy_ops (not_loaded ∅) (Some "cfme")
     = (Ok _default_conf, (get_env lazy_ops (not_loaded ∅)).2).
Proof.
  split; [|split].
  - apply (proj1 (load_conf_overlays lazy_ops (not_loaded sample_env) "cfme")
             sample_global {[ "level" := VStr "TRACE" ]}).
    + reflexivity.
    + right. vm_compute. reflexivity.
  - apply (proj1 (proj2 (load_conf_overlays lazy_ops {| held := Some sample_env; on_disk := ∅ |} "cfme"))).
    + reflexivity.
    + reflexivity.
  - apply (proj2 (proj2 (load_conf_overlays lazy_ops (not_loaded ∅) "cfme"))).
    + reflexivity.
    + reflexivity.
    + reflexivity.
Defined.

(** C4, as stated, fails for the logger name "level": with nothing
    configured at all the defaults hold the string "INFO" under that
    name, [dict.update] cannot read it as key/value pairs, and
    [_load_conf] raises [ValueError] where the claim promises the
    hard-coded default. *)
Lemma load_conf_level_raises :
  (_load_conf lazy_ops (not_loaded ∅) (Some "level")).1 = Raise ValueError
  /\ (_load_conf lazy_ops (not_loaded ∅) (Some "level")).1 <> Ok _default_conf.
Proof. split; [vm_compute; reflexivity | discriminate]. Qed.

(** An [env] that is not held yet is read at that point, and its
    settings apply. *)
Example load_conf_reads_env :
  (_load_conf lazy_ops (not_loaded sample_env) (Some "perf")).1
  = Ok (sample_global ∪ _default_conf)
  /\ (sample_global ∪ _default_conf) !! "level" = Some (VStr "DEBUG").
Proof. split; vm_compute; reflexivity. Qed.

(** The level resolved for [cfme] in the sample is the nested one. *)
Example sample_level :
  (let! d := (_load_conf lazy_ops (not_loaded sample_env) (Some "cfme")).1 in
   Ok (d !! "level")) = Ok (Some (VStr "TRACE")).
Proof. vm_compute. reflexivity. Qed.

End ConfFacts.

Module WarningsFacts.
Import Py Conf Logging Run.

Lemma dedup_filter_seen seen r b :
  warning_body r = Ok b -> b ∈ seen ->
  WarningsDeduplicationFilter_filter seen r = Ok (false, seen).
Proof.
  intros Hb Hin. unfold WarningsDeduplicationFilter_filter. rewrite Hb. simpl.
  by rewrite bool_decide_eq_true_2.
Qed.

Lemma dedup_filter_new seen r b :
  warning_body r = Ok b -> b ∉ seen ->
  WarningsDeduplicationFilter_filter seen r = Ok (true, {[ b ]} ∪ seen).
Proof.
  intros Hb Hin. unfold WarningsDeduplicationFilter_filter. rewrite Hb. simpl.
  by rewrite bool_decide_eq_false_2.
Qed.

(** One step of the filter, whichever way it goes. *)
Lemma dedup_filter_step seen r b :
  warning_body r = Ok b ->
  WarningsDeduplicationFilter_filter seen r = Ok (bool_decide (b ∉ seen), {[ b ]} ∪ seen).
Proof.
  intros Hb. destruct (decide (b ∈ seen)) as [Hin|Hin].
  - rewrite (dedup_filter_seen _ _ _ Hb Hin), bool_decide_eq_false_2 by tauto.
    do 2 f_equal. set_solver.
  - by rewrite (dedup_filter_new _ _ _ Hb Hin), bool_decide_eq_true_2.
Qed.

(** A run over records that all have a body returns, with one verdict
    per record, and the set only grows. *)
Lemma dedup_run_returns rs : forall seen,
  Forall (fun r => returns (warning_body r)) rs ->
  exists passes seen',
    dedup_run seen rs = Ok (passes, seen')
    /\ length passes = length rs /\ seen ⊆ seen'.
Proof.
  induction rs as [|r rs IH]; intros seen Hall.
  - exists [], seen. by repeat split.
  - apply Forall_cons in Hall as [Hr Hall].
    destruct (warning_body r) as [b|] eqn:Hb; [|done].
    destruct (IH ({[ b ]} ∪ seen) Hall) as (passes & seen' & Hrun & Hlen & Hsub).
    exists (bool_decide (b ∉ seen) :: passes), seen'.
    simpl. rewrite (dedup_filter_step _ _ _ Hb). simpl. rewrite Hrun. simpl.
    repeat split; [by rewrite Hlen | set_solver].
Qed.

Lemma dedup_run_bodies rs : forall seen passes seen',
  dedup_run seen rs = Ok (passes, seen') ->
  Forall (fun r => returns (warning_body r)) rs.
Proof.
  induction rs as [|r rs IH]; intros seen passes seen' Hrun; [done|].
  simpl in Hrun. unfold WarningsDeduplicationFilter_filter in Hrun.
  destruct (warning_body r) as [b|] eqn:Hb; [|done].
  simpl in Hrun. constructor; [by rewrite Hb|].
  destruct (bool_decide (b ∈ seen)); simpl in Hrun.
  - destruct (dedup_run seen rs) as [[? ?]|] eqn:E; [|done]. by eapply IH.
  - destruct (dedup_run ({[ b ]} ∪ seen) rs) as [[? ?]|] eqn:E; [|done].
    by eapply IH.
Qed.

(** The verdict on each record of a run: it passes exactly when its body
    is neither in the set at the start nor the body of an earlier
    record. *)
Lemma dedup_run_verdict rs : forall seen passes seen' i r b,
  dedup_run seen rs = Ok (passes, seen') ->
  rs !! i = Some r -> warning_body r = Ok b ->
  b ∈ seen'
  /\ exists pass,
       passes !! i = Some pass
       /\ (pass = true <->
           (b ∉ seen)
           /\ forall j rj, j < i -> rs !! j = Some rj ->
                           warning_body rj <> Ok b).
Proof.
  induction rs as [|r0 rs IH]; intros seen passes seen' i r b Hrun Hi Hb;
    [done|].
  simpl in Hrun.
  destruct (warning_body r0) as [b0|] eqn:Hb0;
    [| by unfold WarningsDeduplicationFilter_filter in Hrun; rewrite Hb0 in Hrun].
  rewrite (dedup_filter_step _ _ _ Hb0) in Hrun. simpl in Hrun.
  destruct (dedup_run ({[ b0 ]} ∪ seen) rs) as [[passes0 seen0]|] eqn:Hrest;
    [|done].
  simpl in Hrun. injection Hrun as <- <-.
  destruct i as [|i].
  - simpl in Hi. injection Hi as ->. rewrite Hb in Hb0. injection Hb0 as <-.
    split.
    + destruct (dedup_run_returns rs ({[ b ]} ∪ seen)
                  (dedup_run_bodies _ _ _ _ Hrest))
        as (? & ? & E & _ & Hsub).
      rewrite Hrest in E. injection E as <- <-. set_solver.
    + exists (bool_decide (b ∉ seen)). split; [done|].
      rewrite bool_decide_eq_true. split; [|tauto].
      intros Hnot. split; [done|]. intros j rj Hj. lia.
  - simpl in Hi.
    destruct (IH _ _ _ _ _ _ Hrest Hi Hb) as [Hin (pass & Hpass & Hiff)].
    split; [done|]. exists pass. split; [done|]. rewrite Hiff.
    split.
    + intros [Hnot Hearlier]. split; [set_solver|].
      intros [|j] rj Hj Hrj Hbj.
      * simpl in Hrj. injection Hrj as <-. rewrite Hb0 in Hbj.
        injection Hbj as ->. set_solver.
      * simpl in Hrj. apply (Hearlier j rj); [lia|done..].
    + intros [Hnot Hearlier]. split.
      * assert (b0 <> b).
        { intros ->. by apply (Hearlier 0 r0); [lia|..]. }
        set_solver.
      * intros j rj Hj Hrj. apply (Hearlier (S j) rj); [lia|done].
Qed.

(** C3.  Of the warning records of a process, each with a first line to
    take the body from, the deduplication filter lets a record through
    exactly when its body is not in the set yet: a body in the set stops
    the record and leaves the set as it is, a new body passes and joins
    the set.  Over the whole run the set only grows, so of two records
    with the same body the later one never passes, nor does a record
    whose body was in the set from the start; a record with a body not
    met before passes. *)
Theorem dedup_first_only (seen : gset string) (rs : list LogRecord)
    (Hbodies : Forall (fun r => returns (warning_body r)) rs) :
  (forall s r b, warning_body r = Ok b ->
                 (b ∈ s -> WarningsDeduplicationFilter_filter s r = Ok (false, s))
                 /\ (b ∉ s -> WarningsDeduplicationFilter_filter s r = Ok (true, {[ b ]} ∪ s)))
  /\ exists passes seen',
       dedup_run seen rs = Ok (passes, seen')
       /\ length passes = length rs
       /\ seen ⊆ seen'
       /\ (forall i j ri rj b,
             i < j -> rs !! i = Some ri -> rs !! j = Some rj ->
             warning_body ri = Ok b -> warning_body rj = Ok b ->
             passes !! j = Some false)
       /\ (forall j rj b,
             rs !! j = Some rj -> warning_body rj = Ok b -> b ∈ seen ->
             passes !! j = Some false)
       /\ (forall i ri b,
             rs !! i = Some ri -> warning_body ri = Ok b -> b ∉ seen ->
             (forall k rk, k < i -> rs !! k = Some rk ->
                           warning_body rk <> Ok b) ->
             passes !! i = Some true /\ b ∈ seen').
Proof.
  split.
  - intros s r b Hb. split; intros Hin.
    + exact (dedup_filter_seen _ _ _ Hb Hin).
    + exact (dedup_filter_new _ _ _ Hb Hin).
  - destruct (dedup_run_returns rs seen Hbodies)
      as (passes & seen' & Hrun & Hlen & Hsub).
    exists passes, seen'.
    refine (conj Hrun (conj Hlen (conj Hsub (conj _ (conj _ _))))).
    + intros i j ri rj b Hij Hi Hj Hbi Hbj.
      destruct (dedup_run_verdict _ _ _ _ _ _ _ Hrun Hj Hbj)
        as [_ (pass & -> & Hiff)].
      f_equal. destruct pass; [|done].
      destruct (proj1 Hiff eq_refl) as [_ Hearlier].
      by destruct (Hearlier i ri).
    + intros j rj b Hj Hbj Hin.
      destruct (dedup_run_verdict _ _ _ _ _ _ _ Hrun Hj Hbj)
        as [_ (pass & -> & Hiff)].
      f_equal. destruct pass; [|done].
      by destruct (proj1 Hiff eq_refl).
    + intros i ri b Hi Hbi Hnot Hearlier.
      destruct (dedup_run_verdict _ _ _ _ _ _ _ Hrun Hi Hbi)
        as [Hin (pass & -> & Hiff)].
      split; [|done]. f_equal. by apply Hiff.
Qed.

Example sample_warnings_run :
  dedup_run ∅ Sample.sample_warnings
  = Ok ([true; false; true], {[ "UserWarning: boo"; "UserWarning: other" ]}).
Proof. vm_compute. reflexivity. Qed.

(** The same three warnings through the [py.warnings] logger of the
    imported module: two of them reach the file and the console, with the
    project path made relative before the body is taken. *)
Example warnings_through_logger :
  (let! st := Sample.warn_all Sample.sample_warning_texts Sample.default_store in
   Ok (seen st, length (stderr st),
       files st !! "/project/log/py.warnings.log"))
  = Ok ({[ "UserWarning: boo"; "UserWarning: other" ]}, 2,
        Some ("2020-01-01 00:00:00,000 [W] [py.warnings] ./a.py:3: UserWarning: boo"
              ++ nl ++ ("  warn()" ++ nl ++
                 (" (/usr/lib/python3/warnings.py:110)" ++ nl ++
              ("2020-01-01 00:00:00,000 [W] [py.warnings] ./a.py:5: UserWarning: other"
              ++ nl ++ ("  warn()" ++ nl ++
                 (" (/usr/lib/python3/warnings.py:110)" ++ nl))))))).
Proof. vm_compute. reflexivity. Qed.

Lemma dedup_first_only_witness :
  Forall (fun r => returns (warning_body r)) Sample.sample_warnings
  /\ exists passes seen',
       dedup_run ∅ Sample.sample_warnings = Ok (passes, seen')
       /\ passes !! 1 = Some false.
Proof.
  assert (Hbodies : Forall (fun r => returns (warning_body r))
                      Sample.sample_warnings)
    by (repeat constructor).
  split; [exact Hbodies|].
  destruct (dedup_first_only ∅ Sample.sample_warnings Hbodies)
    as [_ (passes & seen' & Hrun & _ & _ & Hlater & _)].
  exists passes, seen'. split; [exact Hrun|].
  eapply (Hlater 0 1 _ _ "UserWarning: boo"); [lia | reflexivity..].
Defined.

End WarningsFacts.

Module PerflogFacts.
Import Py Conf Logging Run Log.

(** One logging call without extras, on a logger whose filters only
    rewrite, returns. *)
Lemma one_log_returns (P : platform) (asctime lg : string) (level : Z)
    (msg : string) (args : list arg) (line : Z) (st : store) :
  Forall rewriting_filter (l_filters (the_logger st lg)) ->
  exists st', perform_all P asctime [Log lg level msg args ∅ line] st = Ok st'.
Proof.
  intros Hfs.
  destruct (RunFacts.log_returns P lg level (call_of P asctime msg args ∅ line)
              st RunFacts.extra_allowed_empty Hfs) as (st' & Hlog & _).
  exists st'. simpl. by rewrite Hlog.
Qed.

Lemma elapsed_nonneg (started now : Q) :
  (started <= now)%Q -> (0 <= now - started)%Q.
Proof. intros H. unfold Qminus. by apply -> Qle_minus_iff. Qed.

(** C5 (amended).  [stop] on a tracked name takes the name out of the
    dictionary, makes one logging call, at INFO, with the name and the
    seconds elapsed, and returns that number: the reading of [time()] at
    the call less the reading [start] stored, which is not negative
    exactly when the clock did not go back in between.  [stop] on a name
    that is not tracked makes one logging call at ERROR, returns [None]
    and leaves the dictionary as it was.  Either way the result is a
    value and the logging call returns, on any store in which the
    filters of the timer's logger are those [setup_logger] gives it:
    nothing is raised. *)
Theorem stop_tracked_or_not (lg name : string) (now : Q)
    (m : gmap string Q) :
  (forall started : Q,
      m !! name = Some started ->
      Perflog_stop lg name now m
      = ([Log lg INFO (dq ++ "%s" ++ dq ++ " event took %f seconds")
            [AStr name; ANum (now - started)] ∅ 325],
         Some (now - started)%Q, delete name m)
      /\ delete name m !! name = None
      /\ ((0 <= now - started)%Q <-> (started <= now)%Q))
  /\ (m !! name = None ->
      Perflog_stop lg name now m
      = ([Log lg ERROR
            (dq ++ "%s" ++ dq ++ " not being tracked, call .start first")
            [AStr name] ∅ 328],
         None, m))
  /\ (forall (P : platform) (asctime : string) (st : store),
        Forall rewriting_filter (l_filters (the_logger st lg)) ->
        exists st',
          perform_all P asctime (Perflog_stop lg name now m).1.1 st = Ok st').
Proof.
  split; [|split].
  - intros started Hm. unfold Perflog_stop. rewrite Hm.
    split; [reflexivity|]. split; [apply lookup_delete_eq|].
    unfold Qminus. symmetry. apply Qle_minus_iff.
  - intros Hm. unfold Perflog_stop. by rewrite Hm.
  - intros P asctime st Hfs. unfold Perflog_stop.
    destruct (m !! name) as [started|]; by apply one_log_returns.
Qed.

Lemma stop_tracked_or_not_witness :
  (Perflog_stop "perf" "boot" 12 {[ "boot" := 10%Q ]}).1.2 = Some (12 - 10)%Q
  /\ (0 <= 12 - 10)%Q
  /\ (Perflog_stop "perf" "boot" 12 ∅).1.2 = None
  /\ (Perflog_stop "perf" "boot" 12 ∅).2 = ∅
  /\ exists st',
       perform_all Sample.sample_platform "2020-01-01 00:00:00,000"
         (Perflog_stop "perf" "boot" 12 ∅).1.1 Sample.default_store = Ok st'.
Proof.
  destruct (stop_tracked_or_not "perf" "boot" 12 {[ "boot" := 10%Q ]})
    as [Htracked _].
  destruct (Htracked 10%Q) as (Hstop & _ & Hpos); [reflexivity|].
  destruct (stop_tracked_or_not "perf" "boot" 12 ∅) as (_ & Hnot & Hlog).
  split; [by rewrite Hstop|].
  split; [apply Hpos; vm_compute; discriminate|].
  split; [by rewrite Hnot|]. split; [by rewrite Hnot|].
  exact (Hlog Sample.sample_platform "2020-01-01 00:00:00,000"
           Sample.default_store
           (proj2 (proj2 RunFacts.default_store_filters))).
Defined.

(** C5, as stated, fails when the clock is set back between [start] and
    [stop]: with the reading 10 stored for a tracked name, a [stop] that
    reads 5 returns [5 - 10], which is negative. *)
Lemma stop_elapsed_negative :
  (∅ : gmap string Q) !! "boot" = None
  /\ (Perflog_start "perf" "boot" 10 ∅).2 !! "boot" = Some 10%Q
  /\ (Perflog_stop "perf" "boot" 5 (Perflog_start "perf" "boot" 10 ∅).2).1.2
     = Some (5 - 10)%Q
  /\ ~ (0 <= 5 - 10)%Q.
Proof.
  split; [reflexivity|]. split; [vm_compute; reflexivity|].
  split; [vm_compute; reflexivity|].
  intros H. vm_compute in H. by apply H.
Qed.

(** In a series of operations under a clock that never goes back, every
    stored reading is at most the current one, so every [stop] of a
    tracked name returns a number that is not negative. *)
Lemma run_elapsed_nonneg lg ops : forall from m,
  map_Forall (fun _ started => (started <= from)%Q) m ->
  clock_monotone from ops ->
  Forall (fun returned =>
            match returned with Some q => (0 <= q)%Q | None => True end)
         (perf_run lg ops m).1.
Proof.
  induction ops as [|op ops IH]; intros from m Hm Hclock; [constructor|].
  destruct Hclock as [Hle Hclock]. simpl.
  destruct op as [n now|n now]; simpl in *.
  - specialize (IH now (<[n := now]> m)).
    destruct (perf_run lg ops (<[n := now]> m)) as [returns t] eqn:E.
    simpl. constructor; [done|]. apply IH; [|done].
    apply map_Forall_insert_2; [apply Qle_refl|].
    intros k t0 Hk. eapply Qle_trans; [by apply (Hm k)|done].
  - unfold Perflog_stop. destruct (m !! n) as [started|] eqn:Hn.
    + specialize (IH now (delete n m)).
      destruct (perf_run lg ops (delete n m)) as [returns t] eqn:E.
      simpl. constructor.
      * apply elapsed_nonneg. eapply Qle_trans; [by apply (Hm n)|done].
      * apply IH; [|done]. intros k t0 Hk.
        apply lookup_delete_Some in Hk as [_ Hk].
        eapply Qle_trans; [by apply (Hm k)|done].
    + specialize (IH now m).
      destruct (perf_run lg ops m) as [returns t] eqn:E.
      simpl. constructor; [done|]. apply IH; [|done].
      intros k t0 Hk. eapply Qle_trans; [by apply (Hm k)|done].
Qed.

(** C6.  [start] makes one logging call, a warning when the name is
    tracked already and a debug message when it is not, and stores the
    current reading under the name, whatever was there; the other names
    keep their readings.  A [stop] that follows measures from that
    reading: after two [start]s, from the second. *)
Theorem start_tracks (lg name : string) (now : Q) (m : gmap string Q) :
  Perflog_start lg name now m
  = ((if bool_decide (is_Some (m !! name))
      then [Log lg WARNING
              (dq ++ "%s" ++ dq ++ " event already started, resetting start time")
              [AStr name] ∅ 310]
      else [Log lg DEBUG (dq ++ "%s" ++ dq ++ " event tracking started")
              [AStr name] ∅ 312]),
     <[name := now]> m)
  /\ (Perflog_start lg name now m).2 !! name = Some now
  /\ (forall other, other <> name ->
        (Perflog_start lg name now m).2 !! other = m !! other)
  /\ (forall later,
        (Perflog_stop lg name later (Perflog_start lg name now m).2).1.2
        = Some (later - now)%Q)
  /\ (forall second later,
        (Perflog_start lg name second (Perflog_start lg name now m).2).1
        = [Log lg WARNING
             (dq ++ "%s" ++ dq ++ " event already started, resetting start time")
             [AStr name] ∅ 310]
        /\ (Perflog_stop lg name later
              (Perflog_start lg name second
                 (Perflog_start lg name now m).2).2).1.2
           = Some (later - second)%Q).
Proof.
  split; [reflexivity|]. simpl.
  split; [apply lookup_insert_eq|].
  split; [intros other Hne; by apply lookup_insert_ne|].
  split.
  - intros later. unfold Perflog_stop. by rewrite lookup_insert_eq.
  - intros second later. unfold Perflog_stop, Perflog_start. simpl.
    rewrite !lookup_insert_eq. simpl. done.
Qed.

Lemma start_tracks_witness :
  "other" <> "boot"
  /\ (Perflog_start "perf" "boot" 7 {[ "other" := 3%Q ]}).2 !! "other"
     = Some 3%Q
  /\ (Perflog_start "perf" "boot" 7 {[ "other" := 3%Q ]}).2 !! "boot"
     = Some 7%Q.
Proof.
  assert (Hne : "other" <> "boot") by discriminate.
  destruct (start_tracks "perf" "boot" 7 {[ "other" := 3%Q ]})
    as (_ & Hnow & Hother & _).
  split; [exact Hne|]. split; [|exact Hnow].
  by rewrite (Hother "other" Hne).
Defined.

(** A timer on the imported module: start, start again, stop. *)
Example timer_in_file :
  (let '(a1, m1) := Perflog_start "perf" "boot" 10 ∅ in
   let '(a2, m2) := Perflog_start "perf" "boot" 11 m1 in
   let '(a3, returned, m3) := Perflog_stop "perf" "boot" 13 m2 in
   let! st := perform_all Sample.sample_platform "2020-01-01 00:00:00,000"
                (a1 ++ a2 ++ a3) Sample.default_store in
   Ok (returned, m3, files st !! "/project/log/perf.log"))
  = Ok (Some (13 - 11)%Q, ∅,
        Some ("2020-01-01 00:00:00,000 [W] [perf] " ++ dq ++ "boot" ++ dq
                ++ " event already started, resetting start time (cfme/utils/log.py:310)"
                ++ nl ++
             ("2020-01-01 00:00:00,000 [I] [perf] " ++ dq ++ "boot" ++ dq
                ++ " event took 2/1 seconds (cfme/utils/log.py:325)"
                ++ nl))).
Proof. vm_compute. reflexivity. Qed.

End PerflogFacts.

Module TraceFacts.
Import Py Conf Logging Run.

(** C7.  While the TRACE level is not enabled for a logger, [trace] on
    the logger and on an adapter of either class around it returns with
    the store as it was: no record is made, nothing is written, and the
    list of the [msg % args] that were computed is the same.  TRACE is
    below DEBUG. *)
Theorem trace_disabled_noop (P : platform) (st : store) (n : string)
    (c : call) (Hoff : isEnabledFor st n TRACE = false) :
  trace P n c st = Ok st
  /\ (forall a, adapter_logger a = n -> adapter_trace P a c st = Ok st)
  /\ (forall st', trace P n c st = Ok st' -> formatted st' = formatted st)
  /\ (TRACE < DEBUG)%Z.
Proof.
  assert (Htrace : forall c', trace P n c' st = Ok st).
  { intros c'. unfold trace. by rewrite Hoff. }
  split; [apply Htrace|].
  split; [intros a <-; unfold adapter_trace; apply Htrace|].
  split; [|reflexivity].
  intros st'. rewrite Htrace. by intros [= <-].
Qed.

Lemma trace_disabled_noop_witness :
  isEnabledFor (getLogger "svc" fresh_store) "svc" TRACE = false
  /\ trace Sample.sample_platform "svc"
       (Sample.sample_call "x is %s" [AStr "1"] ∅)
       (getLogger "svc" fresh_store)
     = Ok (getLogger "svc" fresh_store)
  /\ adapter_trace Sample.sample_platform (NamedLoggerAdapter "svc" "part")
       (Sample.sample_call "x is %s" [AStr "1"] ∅)
       (getLogger "svc" fresh_store)
     = Ok (getLogger "svc" fresh_store).
Proof.
  assert (Hoff : isEnabledFor (getLogger "svc" fresh_store) "svc" TRACE = false)
    by reflexivity.
  split; [exact Hoff|].
  destruct (trace_disabled_noop Sample.sample_platform _ "svc"
              (Sample.sample_call "x is %s" [AStr "1"] ∅) Hoff)
    as (Hlogger & Hadapter & _).
  split; [exact Hlogger|].
  exact (Hadapter (NamedLoggerAdapter "svc" "part") eq_refl).
Defined.

(** With the level enabled and a handler that takes the record, the
    arguments are formatted and the line is written. *)
Example trace_enabled_formats :
  isEnabledFor Sample.trace_store "cfme" TRACE = true
  /\ (let! st := trace Sample.sample_platform "cfme"
                   (Sample.sample_call "x is %s" [AStr "1"] ∅)
                   Sample.trace_store in
      Ok (formatted st, files st !! "/project/log/cfme.log"))
     = Ok ([("x is %s", [AStr "1"])],
           Some ("2020-01-01 00:00:00,000 [T] [cfme] x is 1 (cfme/tests/test_x.py:42)"
                   ++ nl)).
Proof. split; vm_compute; reflexivity. Qed.

End TraceFacts.

Module HookFacts.
Import Py Conf Logging Run Log RunFacts.

Lemma hook_extra_allowed (file : string) (lineno : Z) :
  extra_allowed
    {[ "source_file" := VStr file; "source_lineno" := VInt lineno ]}.
Proof. reflexivity. Qed.

(** C8.  For an exception whose traceback has a last entry, the hook
    makes two logging calls on the [cfme] logger, both at ERROR: the
    first with the name of the exception type, the second with the
    formatted traceback as the message and, as [extra], the file and the
    line of the last entry under [source_file] and [source_lineno]; then
    it calls the hook that was installed before, with the same three
    arguments.  The two logging calls return on any store in which the
    filters of the [cfme] logger are those the module sets, so the
    earlier hook is reached. *)
Theorem excepthook_logs_then_delegates (P : platform)
    (type_name value : string) (traceback : list frame) (fr : frame)
    (Hlast : last traceback = Some fr) :
  _custom_excepthook P type_name value traceback
  = Ok [ Log "cfme" ERROR "Unhandled %s" [AStr type_name] ∅ 410;
         Log "cfme" ERROR (strip (join (format_tb P traceback))) []
           {[ "source_file" := VStr (f_file fr);
              "source_lineno" := VInt (f_lineno fr) ]} 411;
         OriginalExcepthook type_name value traceback ]
  /\ forall asctime st,
       Forall rewriting_filter (l_filters (the_logger st "cfme")) ->
       exists acts st',
         _custom_excepthook P type_name value traceback = Ok acts
         /\ perform_all P asctime acts st = Ok st'.
Proof.
  assert (Hhook : _custom_excepthook P type_name value traceback
            = Ok [ Log "cfme" ERROR "Unhandled %s" [AStr type_name] ∅ 410;
                   Log "cfme" ERROR (strip (join (format_tb P traceback))) []
                     {[ "source_file" := VStr (f_file fr);
                        "source_lineno" := VInt (f_lineno fr) ]} 411;
                   OriginalExcepthook type_name value traceback ]).
  { unfold _custom_excepthook. by rewrite Hlast. }
  split; [exact Hhook|].
  intros asctime st Hfs. eexists. rewrite Hhook.
  destruct (log_returns P "cfme" ERROR
              (call_of P asctime "Unhandled %s" [AStr type_name] ∅ 410) st)
    as (st1 & Hlog1 & Hloggers1); [reflexivity | done |].
  destruct (log_returns P "cfme" ERROR
              (call_of P asctime (strip (join (format_tb P traceback))) []
                 {[ "source_file" := VStr (f_file fr);
                    "source_lineno" := VInt (f_lineno fr) ]} 411) st1)
    as (st2 & Hlog2 & Hloggers2).
  { apply hook_extra_allowed. }
  { by rewrite (the_logger_ext _ _ _ Hloggers1). }
  exists st2. split; [reflexivity|].
  simpl. rewrite Hlog1. simpl. rewrite Hlog2. reflexivity.
Qed.

Lemma excepthook_logs_then_delegates_witness :
  last Sample.sample_traceback
    = Some {| f_file := "/project/cfme/x.py"; f_lineno := 40;
              f_function := "main"; f_text := "raise KeyError(1)" |}
  /\ (exists text,
       _custom_excepthook Sample.sample_platform "KeyError" "1"
         Sample.sample_traceback
       = Ok [ Log "cfme" ERROR "Unhandled %s" [AStr "KeyError"] ∅ 410;
              Log "cfme" ERROR text []
                {[ "source_file" := VStr "/project/cfme/x.py";
                   "source_lineno" := VInt 40 ]} 411;
              OriginalExcepthook "KeyError" "1" Sample.sample_traceback ])
  /\ exists acts st',
       _custom_excepthook Sample.sample_platform "KeyError" "1"
         Sample.sample_traceback = Ok acts
       /\ perform_all Sample.sample_platform "2020-01-01 00:00:00,000" acts
            Sample.default_store = Ok st'.
Proof.
  split; [reflexivity|].
  destruct (excepthook_logs_then_delegates Sample.sample_platform "KeyError"
              "1" Sample.sample_traceback _ eq_refl) as [Hhook Hperform].
  split; [eexists; exact Hhook|].
  exact (Hperform "2020-01-01 00:00:00,000" Sample.default_store
           (proj1 default_store_filters)).
Defined.

(** Without a single traceback entry the hook fails on
    [extract_tb(traceback)[-1]], before any call. *)
Example excepthook_no_traceback P type_name value :
  _custom_excepthook P type_name value [] = Raise IndexError.
Proof. reflexivity. Qed.

(** On the imported module both records reach [cfme.log]; the location
    at the end of each line is that of the calls inside [log.py]. *)
Example excepthook_in_file :
  (let! acts := _custom_excepthook Sample.sample_platform "KeyError" "1"
                  Sample.sample_traceback in
   let! st := perform_all Sample.sample_platform "2020-01-01 00:00:00,000"
                acts Sample.default_store in
   Ok (files st !! "/project/log/cfme.log"))
  = Ok (Some
          ("2020-01-01 00:00:00,000 [E] [cfme] Unhandled KeyError (cfme/utils/log.py:410)"
           ++ nl ++
          ("2020-01-01 00:00:00,000 [E] [cfme] File " ++ dq ++ "/project/run.py" ++ dq
           ++ ", line 3, in <module>" ++ nl ++
          ("    main()" ++ nl ++
          ("  File " ++ dq ++ "/project/cfme/x.py" ++ dq ++ ", line 40, in main"
           ++ nl ++
          ("    raise KeyError(1) (cfme/utils/log.py:411)" ++ nl)))))).
Proof. vm_compute. reflexivity. Qed.

End HookFacts.

Module FileFacts.
Import Py Conf Logging Run Log Sample.

Lemma written_call_site (msg : string) :
  written msg ∅ = Ok (Some (info_line msg)).
Proof. vm_compute. reflexivity. Qed.

Lemma written_ignores_extra (msg : string) (extra : gmap string value) :
  extra_allowed extra -> written msg extra = written msg ∅.
Proof.
  intros Hextra. unfold written.
  pose proof (RunFacts.log_ignores_extra sample_platform "cfme" INFO
                (sample_call msg [] ∅) extra default_store eq_refl Hextra)
    as Hsame.
  change (with_extra extra (sample_call msg [] ∅))
    with (sample_call msg [] extra) in Hsame.
  destruct (log sample_platform "cfme" INFO (sample_call msg [] ∅)
              default_store) as [st1|e1];
    destruct (log sample_platform "cfme" INFO (sample_call msg [] extra)
                default_store) as [st2|e2];
    simpl in *; try discriminate.
  - injection Hsame as Hfiles _. by rewrite Hfiles.
  - by injection Hsame as ->.
Qed.

(** C1, on the code.  A call made at line 42 of a test file leaves in
    [cfme.log] a line that ends with the calling statement's location,
    relative to the project, whatever the [extra] of the call: with the
    override the docstring describes, with [source_file] alone and with
    no override at all the line is the same.  [source_file] and
    [source_lineno] are stored on the record and read by nothing. *)
Theorem source_override_not_rendered (msg : string)
    (extra : gmap string value) (Hextra : extra_allowed extra) :
  written msg extra
  = Ok (Some (("2020-01-01 00:00:00,000 [I] [cfme] " ++ msg
                 ++ " (cfme/tests/test_x.py:42)") ++ nl)).
Proof.
  rewrite (written_ignores_extra msg extra Hextra).
  apply written_call_site.
Qed.

Lemma source_override_not_rendered_witness :
  extra_allowed override_both
  /\ written "info log message" override_both
     = Ok (Some ("2020-01-01 00:00:00,000 [I] [cfme] info log message (cfme/tests/test_x.py:42)"
                   ++ nl))
  /\ written "info log message" override_file
     = written "info log message" override_both.
Proof.
  split; [reflexivity|]. split.
  - exact (source_override_not_rendered "info log message" override_both eq_refl).
  - rewrite (source_override_not_rendered "info log message" override_file eq_refl).
    by rewrite (source_override_not_rendered "info log message" override_both eq_refl).
Defined.

(** The rotation settings leave no trace in what the import sets up. *)
Lemma import_ignores_rotation (size backups : Z) :
  rotating_store size backups = default_store.
Proof. vm_compute. reflexivity. Qed.

Lemma info_step (content msg : string) :
  log sample_platform "cfme" INFO (sample_call msg [] ∅)
    (with_cfme_log content default_store)
  = Ok (with_cfme_log ((content ++ EmptyString) ++ info_line msg) default_store).
Proof. vm_compute. reflexivity. Qed.

Lemma info_all_appends (msgs : list string) : forall content,
  info_all msgs (with_cfme_log content default_store)
  = Ok (with_cfme_log (content ++ info_lines msgs) default_store).
Proof.
  induction msgs as [|m msgs IH]; intros content; simpl.
  - by rewrite PyFacts.append_nil_r.
  - rewrite info_step. simpl. rewrite IH.
    by rewrite PyFacts.append_nil_r, PyFacts.append_assoc.
Qed.

Lemma info_lines_length (msgs : list string) :
  62 * length msgs <= String.length (info_lines msgs).
Proof.
  induction msgs as [|m msgs IH]; simpl; [lia|].
  unfold info_line. rewrite !PyFacts.string_length_app.
  change (String.length "2020-01-01 00:00:00,000 [I] [cfme] ") with 35.
  change (String.length " (cfme/tests/test_x.py:42)") with 26.
  change (String.length (nl)) with 1. lia.
Qed.

(** C2, on the code.  Whatever [max_logfile_size] and
    [max_logfile_backups] are set to in [env.yaml], any number of records
    end up in [cfme.log], one after the other: the file holds every line,
    at least 62 bytes for each, and the files of the log directory are
    the three made at import.  No [cfme.log.1] or other backup is ever
    made and the size is not capped. *)
Theorem no_rotation_no_backups (size backups : Z) (msgs : list string) :
  (let! st := info_all msgs (rotating_store size backups) in
   Ok (files st !! cfme_log, files st !! (cfme_log ++ ".1"), dom (files st)))
  = Ok (Some (info_lines msgs), None,
        {[ cfme_log; "/project/log/perf.log"; "/project/log/py.warnings.log" ]})
  /\ 62 * length msgs <= String.length (info_lines msgs).
Proof.
  split; [|apply info_lines_length].
  rewrite import_ignores_rotation.
  assert (Hstart : default_store = with_cfme_log EmptyString default_store)
    by (vm_compute; reflexivity).
  rewrite Hstart at 1. rewrite info_all_appends. simpl bind.
  rewrite PyFacts.append_nil_l.
  generalize (info_lines msgs) as content. intros content.
  vm_compute. reflexivity.
Qed.

(** Three records of 72 bytes each against a limit of 10 bytes, with one
    backup asked for: *)
Example no_rotation_three_records :
  (let! st := info_all ["record one"; "record two"; "record six"]
                (rotating_store 10 1) in
   Ok (String.length <$> files st !! cfme_log,
       files st !! (cfme_log ++ ".1"),
       dom (files st)))
  = Ok (Some 216, None,
        {[ cfme_log; "/project/log/perf.log"; "/project/log/py.warnings.log" ]}).
Proof. vm_compute. reflexivity. Qed.

(** A level of [None] in the configuration is not handed to [setLevel]:
    the import succeeds, and the file handler of [cfme] keeps the level
    it was made with. *)
Example import_with_level_none :
  match imported {[ "logging" := VDict {[ "level" := VNone ]} ]} with
  | Ok (g, _, st) => h_level <$> handlers st !! cfme_file_handler g
  | Raise _ => None
  end = Some NOTSET.
Proof. vm_compute. reflexivity. Qed.

(** A level that is no level name stops the import. *)
Example import_with_unknown_level :
  match imported {[ "logging" := VDict {[ "level" := VStr "LOUD" ]} ]} with
  | Ok _ => None
  | Raise e => Some e
  end = Some ValueError.
Proof. vm_compute. reflexivity. Qed.

End FileFacts.

Module WorkerFacts.
Import Py Conf Logging Run Log Sample.

Example shared_file_handler :
  default_globals = Some {| cfme_file_handler := 0; artifactor_handler := 1 |}
  /\ List.find (is_file_handler default_store)
       (l_handlers (the_logger default_store "cfme")) = Some 0
  /\ List.find (is_file_handler default_store)
       (l_handlers (the_logger default_store "wrapanapi")) = Some 0
  /\ List.find (is_file_handler default_store)
       (l_handlers (the_logger default_store "py.warnings")) = Some 3
  /\ baseFilename_of default_store 0 = "/project/log/cfme.log"
  /\ baseFilename_of default_store 3 = "/project/log/py.warnings.log".
Proof. repeat split. Qed.

(** The worker's name goes into the file name once per round of the
    loop. *)
Lemma worker_filename_tidy (w d f : string) :
  tidy_dir d -> no_slash w = true -> no_slash f = true ->
  worker_filename w (d ++ "/" ++ f) = d ++ "/" ++ w ++ "-" ++ f.
Proof.
  intros Hd Hw Hf. unfold worker_filename.
  destruct (PyFacts.path_split_join d f Hd Hf) as [-> _]. simpl.
  apply PyFacts.path_split_join; [done|].
  apply PyFacts.no_slash_app; [done|]. by apply (PyFacts.no_slash_app "-").
Qed.

(** For every worker name, the handler that [cfme] and [wrapanapi] share
    is renamed by two rounds of the loop, that of [py.warnings] by one. *)
Lemma worker_rounds (asctime w : string) :
  (let! st := setup_for_worker sample_platform asctime w worker_loggers
                default_store in
   Ok (baseFilename_of st 0, stream_of st 0,
       baseFilename_of st 3, stream_of st 3, prefix st))
  = Ok (worker_filename w (worker_filename w "/project/log/cfme.log"), None,
        worker_filename w "/project/log/py.warnings.log", None,
        Some ("(" ++ w ++ ")")).
Proof. vm_compute. reflexivity. Qed.

Lemma log_dir_tidy : tidy_dir "/project/log".
Proof. by repeat split. Qed.

(** C9, on the code.  One call of [setup_for_worker], for a worker name
    without a slash, on the imported module closes the file handlers and
    sets the prefix of [add_prefix] to the name in parentheses; the
    handler of [py.warnings] is renamed with the name in front once, but
    the handler that [cfme] and [wrapanapi] share is met twice by the loop
    and ends with the name in front twice. *)
Theorem worker_prefix_applied_twice (asctime w : string)
    (Hw : no_slash w = true) :
  (let! st := setup_for_worker sample_platform asctime w worker_loggers
                default_store in
   Ok (baseFilename_of st 0, stream_of st 0,
       baseFilename_of st 3, stream_of st 3, prefix st))
  = Ok ("/project/log" ++ "/" ++ w ++ "-" ++ w ++ "-" ++ "cfme.log", None,
        "/project/log" ++ "/" ++ w ++ "-" ++ "py.warnings.log", None,
        Some ("(" ++ w ++ ")")).
Proof.
  rewrite worker_rounds.
  change "/project/log/cfme.log" with ("/project/log" ++ "/" ++ "cfme.log").
  change "/project/log/py.warnings.log"
    with ("/project/log" ++ "/" ++ "py.warnings.log").
  rewrite !(worker_filename_tidy w "/project/log" _ log_dir_tidy Hw)
    by (done || (apply PyFacts.no_slash_app; [done|];
                 by apply (PyFacts.no_slash_app "-"))).
  reflexivity.
Qed.

Lemma worker_prefix_applied_twice_witness :
  no_slash "gw0" = true
  /\ (let! st := setup_for_worker sample_platform "2020-01-01 00:00:00,000"
                   "gw0" worker_loggers default_store in
      Ok (baseFilename_of st 0, stream_of st 0,
          baseFilename_of st 3, stream_of st 3, prefix st))
     = Ok ("/project/log/gw0-gw0-cfme.log", None,
           "/project/log/gw0-py.warnings.log", None, Some "(gw0)").
Proof.
  split; [reflexivity|].
  exact (worker_prefix_applied_twice "2020-01-01 00:00:00,000" "gw0" eq_refl).
Defined.

(** After the first round of the loop the name is as intended; the
    round for [wrapanapi] prefixes it again. *)
Example worker_prefix_after_cfme :
  (let! st := setup_for_worker sample_platform "2020-01-01 00:00:00,000"
                "gw0" ["cfme"] default_store in
   Ok (baseFilename_of st 0))
  = Ok "/project/log/gw0-cfme.log".
Proof. vm_compute. reflexivity. Qed.

End WorkerFacts.

(** ** Text operations *)

Module TextFacts.
Import Py PyFacts Rest.















End TextFacts.

(** ** What handlers leave alone *)

Module KeepFacts.
Import Py Conf Logging Run Rest.



Section Keep.
Context (P : platform).











End Keep.
End KeepFacts.

(** ** The warnings filters *)

Module WarningsMore.
Import Py Conf Logging Run Log Sample Rest PyFacts TextFacts RunFacts KeepFacts.













End WarningsMore.

(** ** The timer over a series of operations *)

Module PerflogMore.
Import Py Conf Logging Run Log Sample Rest.




End PerflogMore.

(** ** Handler levels *)

Module LevelFacts.
Import Py Conf Logging Run Log Sample Rest RunFacts.

Section Levels.
Context (P : platform).




End Levels.


End LevelFacts.

(** ** Markers, once more *)

Module MarkerMore.
Import Py Marker PyFacts.



End MarkerMore.

(** ** Configuration: what is always there, and what raises *)

Module ConfMore.
Import Py Conf Sample Rest ConfFacts.



Section Resolution.
Context {S : Type} (conf : conf_ops S).


End Resolution.



End ConfMore.

(** ** Handlers and loggers as the module sets them up *)

Module SetupFacts.
Import Py Conf Logging Run Log Sample Rest PyFacts RunFacts ConfFacts ConfMore.














Section WithConf.
Context (P : platform) {S : Type} (conf : conf_ops S).




End WithConf.



End SetupFacts.

(** ** Files under any configuration *)

Module AppendFacts.
Import Py Conf Logging Run Log Sample Rest RunFacts.




End AppendFacts.

(** ** The loggers of the imported module at work *)

Module WiringFacts.
Import Py Conf Logging Run Log Sample Rest RunFacts.





End WiringFacts.

(** ** The artifactor and the console *)

Module DeliveryFacts.
Import Py Conf Logging Run Log Sample Rest RunFacts KeepFacts.








End DeliveryFacts.

(** ** Stack frames and standard output *)

Module FrameFacts.
Import Py Conf Logging Run Log Sample Rest.








End FrameFacts.

(** ** Workers, once more *)

Module WorkerMore.
Import Py Conf Logging Run Log Sample Rest PyFacts RunFacts WorkerFacts.






End WorkerMore.
